(** * PathogenExtensions: a shallow embedding of the Pathogen libclang extensions

    This development embeds the parts of
    [clang/tools/libclang/PathogenExtensions.cpp] that build record layouts,
    classify ABI argument information, fold constants and report interop
    struct sizes, and proves properties of them.

    Clang's front-end objects (declarations, [ASTRecordLayout], [APValue],
    [ABIArgInfo]) are inputs to these functions; they are represented by
    plain records carrying exactly the answers the extension code queries. *)

From Stdlib Require Import ZArith List String Bool Sorted Permutation Lia.
Import ListNotations.
Open Scope string_scope.
Open Scope list_scope.
Open Scope Z_scope.

(** ** Fixed-width integers *)

(** Reduction of an integer to a signed 64-bit value ([int64_t]). *)
Definition to_int64 (z : Z) : Z :=
  let m := z mod 2 ^ 64 in
  if m <? 2 ^ 63 then m else m - 2 ^ 64.

(** Reduction of an integer to an unsigned 64-bit value ([uint64_t]). *)
Definition to_uint64 (z : Z) : Z := z mod 2 ^ 64.

(** Reduction of an integer to a signed 32-bit value ([int32_t], [int]). *)
Definition to_int32 (z : Z) : Z :=
  let m := z mod 2 ^ 32 in
  if m <? 2 ^ 31 then m else m - 2 ^ 32.

(** [ptr != nullptr] for an optional object. *)
Definition isSome {A} (o : option A) : bool :=
  match o with Some _ => true | None => false end.

(** ** Types and cursors *)

(** A [CXType] as produced by [cxtype::MakeCXType]: either one of the two
    pointer types the layout code synthesises, or the type of a declaration
    (identified by a number). *)
Inductive CXType :=
| TVoidPtr
| TVoidPtrPtr
| TDecl (id : nat).

(** ** Record layouts *)

Inductive PathogenRecordFieldKind :=
| Normal
| VTablePtr
| NonVirtualBase
| VirtualBaseTablePtr
| VTorDisp
| VirtualBase.

Definition PathogenRecordFieldKind_eqb (a b : PathogenRecordFieldKind) : bool :=
  match a, b with
  | Normal, Normal | VTablePtr, VTablePtr | NonVirtualBase, NonVirtualBase
  | VirtualBaseTablePtr, VirtualBaseTablePtr | VTorDisp, VTorDisp
  | VirtualBase, VirtualBase => true
  | _, _ => false
  end.

(** A [FieldDecl]: its name, the id of its type, and its bit width when it
    is a bit-field. *)
Record FieldDecl := {
  fd_name : string;
  fd_type : nat;
  fd_bit_width : option Z;
}.

(** [PathogenRecordField], without its [NextField] link: the chain of
    fields is the list [FirstField]. *)
Record PathogenRecordField := {
  Kind : PathogenRecordFieldKind;
  Offset : Z;
  Name : string;
  Type_ : CXType;
  FieldDeclaration : option FieldDecl;
  IsBitField : bool;
  BitFieldStart : Z;
  BitFieldWidth : Z;
  IsPrimaryBase : bool;
}.

(** [new PathogenRecordField()] followed by the four assignments of
    [AddField]: value-initialised, so every other member is zero. *)
Definition new_field (kind : PathogenRecordFieldKind) (offset : Z)
    (name : string) (type : CXType) : PathogenRecordField :=
  {| Kind := kind; Offset := offset; Name := name; Type_ := type;
     FieldDeclaration := None; IsBitField := false; BitFieldStart := 0;
     BitFieldWidth := 0; IsPrimaryBase := false |}.

(** The insertion loop of [PathogenRecordLayout::AddField]: walk past every
    field whose [Offset] is [<=] the new offset, then link the new field in. *)
Fixpoint insert_field (field : PathogenRecordField)
    (fields : list PathogenRecordField) : list PathogenRecordField :=
  match fields with
  | [] => [field]
  | f :: rest =>
      if Offset f <=? Offset field then f :: insert_field field rest
      else field :: f :: rest
  end.

(** A v-table component: its kind (mirroring [VTableComponent::Kind]) and
    the payload the entry keeps (an offset or a declaration id). *)
Record VTableComponent := {
  vc_kind : Z;
  vc_payload : Z;
}.

(** [PathogenVTable]: its entries; [NextVTable] is the list structure. *)
Record PathogenVTable := {
  EntryCount : Z;
  Entries : list VTableComponent;
}.

(** The [PathogenVTable] constructor: [EntryCount] is the number of
    components narrowed to [int32_t], and the copy loop fills the first
    [EntryCount] entries (none when the narrowed count is negative). *)
Definition make_vtable (components : list VTableComponent) : PathogenVTable :=
  let count := to_int32 (Z.of_nat (List.length components)) in
  {| EntryCount := count; Entries := firstn (Z.to_nat count) components |}.

Record PathogenRecordLayout := {
  FirstField : list PathogenRecordField;
  FirstVTable : list PathogenVTable;
  Size : Z;
  Alignment : Z;
  IsCppRecord : bool;
  NonVirtualSize : Z;
  NonVirtualAlignment : Z;
}.

(** [PathogenRecordLayout::AddField]: the new field is built completely
    (the caller's later writes through the returned pointer are folded into
    [field]) and inserted by the scan of [insert_field]. *)
Definition AddField (layout : PathogenRecordLayout) (field : PathogenRecordField)
    : PathogenRecordLayout :=
  {| FirstField := insert_field field (FirstField layout);
     FirstVTable := FirstVTable layout;
     Size := Size layout; Alignment := Alignment layout;
     IsCppRecord := IsCppRecord layout;
     NonVirtualSize := NonVirtualSize layout;
     NonVirtualAlignment := NonVirtualAlignment layout |}.

(** [PathogenRecordLayout::AddVTableLayout]: append at the end of the chain. *)
Definition AddVTableLayout (layout : PathogenRecordLayout)
    (components : list VTableComponent) : PathogenRecordLayout :=
  {| FirstField := FirstField layout;
     FirstVTable := FirstVTable layout ++ [make_vtable components];
     Size := Size layout; Alignment := Alignment layout;
     IsCppRecord := IsCppRecord layout;
     NonVirtualSize := NonVirtualSize layout;
     NonVirtualAlignment := NonVirtualAlignment layout |}.

(** ** The front end's view of a record *)

(** A [CXXBaseSpecifier]: whether it is virtual, the id of the base's type
    and the id of the base's [CXXRecordDecl]. *)
Record BaseSpecifier := {
  bs_virtual : bool;
  bs_type : nat;
  bs_record : nat;
}.

(** The queries [pathogen_GetRecordLayout] makes on [ASTRecordLayout]. *)
Record ASTRecordLayout := {
  rl_size : Z;
  rl_alignment : Z;
  rl_nv_size : Z;
  rl_nv_alignment : Z;
  rl_primary_base : option nat;
  rl_has_own_vfptr : bool;
  rl_has_own_vbptr : bool;
  rl_vbptr_offset : Z;
  rl_field_offset : nat -> N;      (* getFieldOffset, in bits *)
  rl_base_offset : nat -> Z;       (* getBaseClassOffset *)
  rl_vbase_offset : nat -> Z;      (* getVBaseClassOffset *)
  rl_has_vtordisp : nat -> bool;   (* VBaseOffsetsMap[..].hasVtorDisp() *)
}.

(** The parts of a [CXXRecordDecl] beyond a plain [RecordDecl]. *)
Record CXXRecordInfo := {
  cx_is_dynamic : bool;
  cx_bases : list BaseSpecifier;
  cx_vbases : list BaseSpecifier;
  cx_ms_vftables : list (list VTableComponent);  (* one per getVFPtrOffsets entry *)
  cx_itanium_vtable : list VTableComponent;
}.

(** A [RecordDecl]. [rd_cxx] is [Some] exactly when [dyn_cast<CXXRecordDecl>]
    succeeds. *)
Record RecordDecl := {
  rd_has_definition : bool;
  rd_cxx : option CXXRecordInfo;
  rd_fields : list FieldDecl;
  rd_layout : ASTRecordLayout;
  rd_arg_passing : Z;   (* getArgPassingRestrictions *)
}.

(** The [ASTContext] facts the code reads. *)
Record ASTContext := {
  ctx_is_microsoft : bool;   (* getCXXABI().isMicrosoft(), also the v-table context *)
  ctx_char_width : positive; (* getCharWidth() *)
}.

(** Declarations, as far as the [dyn_cast]s of the file distinguish them. *)
Inductive VarDeclInit := NoInit | Init (e : nat).

Inductive Decl :=
| DRecord (r : RecordDecl)
| DVar (init : VarDeclInit)
| DFunction
| DOther.

(** A [CXCursor]: a declaration cursor ([getCursorDecl] may be null), an
    expression cursor (the expression is identified by a number), or any
    other cursor kind. *)
Inductive CXCursor :=
| CursorDecl (d : option Decl)
| CursorExpr (e : nat)
| CursorOther.

Definition clang_isDeclaration (c : CXCursor) : bool :=
  match c with CursorDecl _ => true | _ => false end.

Definition clang_isExpression (c : CXCursor) : bool :=
  match c with CursorExpr _ => true | _ => false end.

(** [dyn_cast_or_null<RecordDecl>(getCursorDecl(cursor))]. *)
Definition cursor_record (c : CXCursor) : option RecordDecl :=
  match c with
  | CursorDecl (Some (DRecord r)) => Some r
  | _ => None
  end.

(** ** pathogen_GetRecordLayout *)

Section GetRecordLayout.

Variable context : ASTContext.

Definition IsMsLayout : bool := ctx_is_microsoft context.

(** [context.toCharUnitsFromBits]: truncating division by the char width. *)
Definition toCharUnitsFromBits (bits : Z) : Z :=
  Z.quot bits (Zpos (ctx_char_width context)).

(** The virtual-pointer slot (first step of the C++ part). *)
Definition vptr_fields (cx : CXXRecordInfo) (l : ASTRecordLayout)
    : list PathogenRecordField :=
  if cx_is_dynamic cx && negb (isSome (rl_primary_base l)) && negb IsMsLayout
  then [new_field VTablePtr 0 "vtable_pointer" TVoidPtrPtr]
  else if rl_has_own_vfptr l
  then [new_field VTablePtr 0 "vftable_pointer" TVoidPtrPtr]
  else [].

Definition is_primary (l : ASTRecordLayout) (rec : nat) : bool :=
  match rl_primary_base l with Some p => Nat.eqb p rec | None => false end.

(** Non-virtual bases, in [bases()] order; virtual ones are skipped. *)
Definition nonvirtual_base_fields (cx : CXXRecordInfo) (l : ASTRecordLayout)
    : list PathogenRecordField :=
  flat_map (fun b =>
    if bs_virtual b then []
    else
      let isPrimary := is_primary l (bs_record b) in
      let f := new_field NonVirtualBase (rl_base_offset l (bs_record b))
                 (if isPrimary then "primary_base" else "base") (TDecl (bs_type b)) in
      [{| Kind := Kind f; Offset := Offset f; Name := Name f; Type_ := Type_ f;
          FieldDeclaration := None; IsBitField := false; BitFieldStart := 0;
          BitFieldWidth := 0; IsPrimaryBase := isPrimary |}])
    (cx_bases cx).

Definition vbptr_fields (l : ASTRecordLayout) : list PathogenRecordField :=
  if rl_has_own_vbptr l
  then [new_field VirtualBaseTablePtr (rl_vbptr_offset l) "vbtable_pointer" TVoidPtr]
  else [].

(** One normal field, with its index in declaration order. *)
Definition normal_field (l : ASTRecordLayout) (index : nat) (fd : FieldDecl)
    : PathogenRecordField :=
  let offsetBits := Z.of_N (rl_field_offset l index) in
  let offset := toCharUnitsFromBits offsetBits in
  {| Kind := Normal; Offset := offset; Name := fd_name fd;
     Type_ := TDecl (fd_type fd); FieldDeclaration := Some fd;
     IsBitField := isSome (fd_bit_width fd);
     BitFieldStart :=
       match fd_bit_width fd with
       | Some _ => (offsetBits - offset * Zpos (ctx_char_width context)) mod 2 ^ 32
       | None => 0
       end;
     BitFieldWidth := match fd_bit_width fd with Some w => w | None => 0 end;
     IsPrimaryBase := false |}.

Fixpoint normal_fields_from (l : ASTRecordLayout) (index : nat)
    (fds : list FieldDecl) : list PathogenRecordField :=
  match fds with
  | [] => []
  | fd :: rest => normal_field l index fd :: normal_fields_from l (S index) rest
  end.

(** Virtual bases, in [vbases()] order: an optional [vtordisp] slot four
    bytes before the base, then the base itself. *)
Definition virtual_base_fields (cx : CXXRecordInfo) (l : ASTRecordLayout)
    : list PathogenRecordField :=
  flat_map (fun b =>
    let offset := rl_vbase_offset l (bs_record b) in
    let isPrimary := is_primary l (bs_record b) in
    (if rl_has_vtordisp l (bs_record b)
     then [new_field VTorDisp (to_int64 (offset - 4)) "vtordisp" (TDecl (bs_type b))]
     else []) ++
    [{| Kind := VirtualBase; Offset := offset;
        Name := if isPrimary then "primary_virtual_base" else "virtual_base";
        Type_ := TDecl (bs_type b); FieldDeclaration := None; IsBitField := false;
        BitFieldStart := 0; BitFieldWidth := 0; IsPrimaryBase := isPrimary |}])
    (cx_vbases cx).

(** Every field handed to [AddField], in the order the function adds them. *)
Definition layout_insertions (r : RecordDecl) : list PathogenRecordField :=
  let l := rd_layout r in
  match rd_cxx r with
  | Some cx => vptr_fields cx l ++ nonvirtual_base_fields cx l ++ vbptr_fields l
  | None => []
  end ++
  normal_fields_from l 0 (rd_fields r) ++
  match rd_cxx r with
  | Some cx => virtual_base_fields cx l
  | None => []
  end.

(** The v-tables handed to [AddVTableLayout], in order. *)
Definition layout_vtables (r : RecordDecl) : list (list VTableComponent) :=
  match rd_cxx r with
  | Some cx =>
      if cx_is_dynamic cx then
        if ctx_is_microsoft context then cx_ms_vftables cx
        else [cx_itanium_vtable cx]
      else []
  | None => []
  end.

(** [new PathogenRecordLayout()] with the sizes filled in. *)
Definition initial_layout (r : RecordDecl) : PathogenRecordLayout :=
  let l := rd_layout r in
  {| FirstField := []; FirstVTable := [];
     Size := rl_size l; Alignment := rl_alignment l;
     IsCppRecord := isSome (rd_cxx r);
     NonVirtualSize := if isSome (rd_cxx r) then rl_nv_size l else 0;
     NonVirtualAlignment := if isSome (rd_cxx r) then rl_nv_alignment l else 0 |}.

Definition build_layout (r : RecordDecl) : PathogenRecordLayout :=
  fold_left AddVTableLayout (layout_vtables r)
    (fold_left AddField (layout_insertions r) (initial_layout r)).

Definition pathogen_GetRecordLayout (cursor : CXCursor)
    : option PathogenRecordLayout :=
  if negb (clang_isDeclaration cursor) then None
  else match cursor_record cursor with
       | None => None
       | Some r => if negb (rd_has_definition r) then None
                   else Some (build_layout r)
       end.

End GetRecordLayout.

(** ** pathogen_GetRecordLayout with its assertion failures *)

(** A run of a function that can stop on a failed assertion (with assertions
    enabled; without them the same inputs reach undefined behaviour). *)
Inductive Run (A : Type) : Type :=
| Completes (a : A)
| AssertionFails (msg : string).

Arguments Completes {A} a.
Arguments AssertionFails {A} msg.

Section GetRecordLayoutRun.

Variable context : ASTContext.

(** [context.getASTRecordLayout(record)] (line 318) is clang's: it asserts
    that the declaration is valid, and its layout builders cannot size a
    dependent type. [layout_aborts r] holds when it does not return on [r]. *)
Variable layout_aborts : RecordDecl -> bool.

(** [Type::isDependentType()], on a type id. *)
Variable is_dependent_type : nat -> bool.

(** The assertion of the base loop (line 357), checked on every base,
    virtual or not, before the virtual ones are skipped. *)
Definition has_dependent_base (r : RecordDecl) : bool :=
  match rd_cxx r with
  | Some cx => existsb (fun b => is_dependent_type (bs_type b)) (cx_bases cx)
  | None => false
  end.

(** [pathogen_GetRecordLayout]: the three early returns, then the layout
    query and the base loop, either of which may stop the program; once both
    pass, the layout is built as in [build_layout]. *)
Definition GetRecordLayout_run (cursor : CXCursor)
    : Run (option PathogenRecordLayout) :=
  if negb (clang_isDeclaration cursor) then Completes None
  else match cursor_record cursor with
       | None => Completes None
       | Some r =>
           if negb (rd_has_definition r) then Completes None
           else if layout_aborts r then AssertionFails "getASTRecordLayout"
           else if has_dependent_base r
           then AssertionFails "Cannot layout class with dependent bases."
           else Completes (Some (build_layout context r))
       end.

End GetRecordLayoutRun.

(** Number of slots of a given kind. *)
Definition count_kind (k : PathogenRecordFieldKind) (fs : list PathogenRecordField) : nat :=
  List.length (filter (fun f => PathogenRecordFieldKind_eqb (Kind f) k) fs).

(** Modelled from the spec: the front end's record layout for a C++ class
    without inheritance ([ASTRecordLayout] is computed by clang's record
    layout builders, which are not part of this file). Following the spec's
    glossary, a primary base is one of the class's bases, so a class without
    bases has none; a virtual-base table pointer only serves virtual bases;
    and a dynamic class with no base that could supply its virtual pointer
    owns its virtual-function-pointer slot under the Microsoft ABI. *)
Definition no_inheritance (cx : CXXRecordInfo) (l : ASTRecordLayout) (ms : bool) : Prop :=
  cx_bases cx = [] /\ cx_vbases cx = [] /\ rl_primary_base l = None /\
  rl_has_own_vbptr l = false /\
  (ms = true -> cx_is_dynamic cx = true -> rl_has_own_vfptr l = true).

(** ** Outcomes of C entry points *)

(** What a call does: it returns, or it dereferences a null pointer, or it
    calls [free] on memory it does not own. *)
Inductive Outcome (A : Type) :=
| Returns (a : A)
| NullDereference
| InvalidFree.
Arguments Returns {A} a.
Arguments NullDereference {A}.
Arguments InvalidFree {A}.

(** ** pathogen_getArgPassingRestrictions *)

(** [PathogenArgPassingKind] values. *)
Definition ArgPassing_CanPassInRegisters : Z := 0.
Definition ArgPassing_CannotPassInRegisters : Z := 1.
Definition ArgPassing_CanNeverPassInRegisters : Z := 2.
Definition ArgPassing_Invalid : Z := 3.

(** The declaration check returns [Invalid]; the result of
    [dyn_cast_or_null<RecordDecl>] is dereferenced without a null check. *)
Definition pathogen_getArgPassingRestrictions (cursor : CXCursor) : Outcome Z :=
  if negb (clang_isDeclaration cursor) then Returns ArgPassing_Invalid
  else match cursor_record cursor with
       | Some r => Returns (rd_arg_passing r)
       | None => NullDereference
       end.

(** ** pathogen_ComputeConstantValue *)

Module ConstantValue.

(** [PathogenConstantValueKind] values. *)
Definition Unknown : Z := 0.
Definition NullPointer : Z := 1.
Definition UnsignedInteger : Z := 2.
Definition SignedInteger : Z := 3.
Definition FloatingPoint : Z := 4.
Definition String : Z := 5.

(** [PathogenStringConstantKind] values, as the [int] stored in [SubKind];
    [WideCharBit] is [1 << 31], the sign bit of a 32-bit [int]. *)
Definition Ascii : Z := 0.
Definition WideChar : Z := 1.
Definition Utf8 : Z := 2.
Definition Utf16 : Z := 3.
Definition Utf32 : Z := 4.
Definition WideCharBit : Z := - 2 ^ 31.

(** [PathogenConstantValueInfo]. *)
Record Info := {
  HasSideEffects : bool;
  HasUndefinedBehavior : bool;
  Kind : Z;
  SubKind : Z;
  Value : Z;   (* uint64_t *)
}.

(** Modelled from the spec: [llvm::APSInt] (llvm/ADT/APSInt.h, not in this
    file): a bit width, a signedness, and the bits as an unsigned number
    below [2 ^ width]. *)
Record APSInt := {
  ai_width : Z;
  ai_signed : bool;
  ai_bits : Z;
}.

(** The integer an [APSInt] denotes under its own signedness. *)
Definition apsint_value (a : APSInt) : Z :=
  if ai_signed a && (2 ^ (ai_width a - 1) <=? ai_bits a)
  then ai_bits a - 2 ^ ai_width a
  else ai_bits a.

(** Modelled from the spec: [APSInt::getExtValue] (not in this file), the
    integer "sign/zero-extended to 64 bits" as an [int64_t]. *)
Definition getExtValue (a : APSInt) : Z := to_int64 (apsint_value a).

(** Sign extension of a [w]-bit pattern [x] to 64 bits: when bit [w - 1]
    is set, bits [w] to [63] are set as well. *)
Definition sign_extend_64 (w x : Z) : Z :=
  if Z.testbit x (w - 1) then x + (2 ^ 64 - 2 ^ w) else x.

(** A [StringLiteral]: [getKind()] (mirrored by [Ascii] .. [Utf32]),
    [getCharByteWidth()] and its bytes. *)
Record StringLiteral := {
  sl_kind : Z;
  sl_char_byte_width : Z;
  sl_bytes : list Z;
}.

(** The base of an lvalue [APValue]: a string literal, another expression,
    or a declaration. *)
Inductive LValueBase :=
| LBStringLiteral (sl : StringLiteral)
| LBOtherExpr
| LBDecl.

(** An [APValue]. [AVNullPointer] is the lvalue for which [isNullPointer()]
    holds; [AVOther k] stands for every other value kind [k]. *)
Inductive APValue :=
| AVInt (a : APSInt)
| AVFloat (width : Z) (bits : Z)
| AVNullPointer
| AVLValue (base : LValueBase)
| AVOther (k : Z).

(** [APValue::getKind()], numbered as [APValue::ValueKind]. *)
Definition getKind (v : APValue) : Z :=
  match v with
  | AVInt _ => 2
  | AVFloat _ _ => 3
  | AVNullPointer | AVLValue _ => 7
  | AVOther k => k
  end.

(** What [Expr::EvaluateAsRValue] reports: success, the [Diag] pointer of
    the [EvalResult] ([None] when null, else the number of diagnostics), the
    two status flags, and the value. *)
Record EvalResult := {
  er_success : bool;
  er_diag : option nat;
  er_side_effects : bool;
  er_undefined_behavior : bool;
  er_val : APValue;
}.

(** The C heap as far as the string payloads go: allocated blocks by address
    and the next fresh address. *)
Record Heap := {
  next_addr : positive;
  blocks : list (Z * list Z);
}.

Definition malloc (h : Heap) (contents : list Z) : Z * Heap :=
  (Zpos (next_addr h),
   {| next_addr := Pos.succ (next_addr h);
      blocks := (Zpos (next_addr h), contents) :: blocks h |}).

Definition allocated (h : Heap) (addr : Z) : bool :=
  existsb (fun b => fst b =? addr) (blocks h).

(** [free]: releasing memory that is not an allocated block is an error. *)
Definition free (h : Heap) (addr : Z) : Outcome Heap :=
  if allocated h addr
  then Returns {| next_addr := next_addr h;
                  blocks := filter (fun b => negb (fst b =? addr)) (blocks h) |}
  else InvalidFree.

(** The caller-visible state: [*info], [*error] and the heap. *)
Record State := {
  info : Info;
  error : option string;
  heap : Heap;
}.

Definition set_error (st : State) (msg : string) : State :=
  {| info := info st; error := Some msg; heap := heap st |}.

Definition not_var_or_expr_message : string :=
  "The cursor is not a variable declaration or expression.".

Definition diagnostics_message : string :=
  "EvaluateAsRValue returned diagnostics.".

(** The re-tagging of a string literal's kind. *)
Definition string_subkind (sl : StringLiteral) : Z :=
  if sl_kind sl =? WideChar then
    if sl_char_byte_width sl =? 1 then Z.lor Utf8 WideCharBit
    else if sl_char_byte_width sl =? 2 then Z.lor Utf16 WideCharBit
    else if sl_char_byte_width sl =? 4 then Z.lor Utf32 WideCharBit
    else sl_kind sl   (* assert(false) in the default case, then break *)
  else sl_kind sl.

(** The kind dispatch once the fold has succeeded. *)
Definition fill_info (res : EvalResult) (h : Heap) : Info * Heap :=
  let base := {| HasSideEffects := er_side_effects res;
                 HasUndefinedBehavior := er_undefined_behavior res;
                 Kind := Unknown; SubKind := getKind (er_val res); Value := 0 |} in
  match er_val res with
  | AVInt a =>
      ({| HasSideEffects := HasSideEffects base;
          HasUndefinedBehavior := HasUndefinedBehavior base;
          Kind := if ai_signed a then SignedInteger else UnsignedInteger;
          SubKind := ai_width a;
          Value := to_uint64 (getExtValue a) |}, h)
  | AVFloat w bits =>
      ({| HasSideEffects := HasSideEffects base;
          HasUndefinedBehavior := HasUndefinedBehavior base;
          Kind := FloatingPoint; SubKind := w; Value := to_uint64 bits |}, h)
  | AVNullPointer =>
      ({| HasSideEffects := HasSideEffects base;
          HasUndefinedBehavior := HasUndefinedBehavior base;
          Kind := NullPointer; SubKind := 0; Value := 0 |}, h)
  | AVLValue (LBStringLiteral sl) =>
      let (addr, h') := malloc h (Z.of_nat (List.length (sl_bytes sl)) :: sl_bytes sl) in
      ({| HasSideEffects := HasSideEffects base;
          HasUndefinedBehavior := HasUndefinedBehavior base;
          Kind := String; SubKind := string_subkind sl; Value := addr |}, h')
  | AVLValue _ | AVOther _ => (base, h)
  end.

(** The values on which the kind dispatch of [pathogen_ComputeConstantValue]
    runs to its end with LLVM's assertions enabled (clang and LLVM, not in
    this file). [APSInt::getExtValue()] asserts that the integer fits in an
    [int64_t]; [APInt::getZExtValue()] asserts that the bit pattern of a
    float fits in 64 bits, which an 80- or 128-bit float with a bit set above
    bit 63 does not; and [APValue::isNullPointer()] asserts [isLValue()], so
    a value that is neither an integer, a float nor an lvalue (an array, a
    struct, a complex number, a member pointer, ...) stops the program there.
    On the other values the program never reaches the result [fill_info]
    computes. *)
Definition dispatch_completes (v : APValue) : bool :=
  match v with
  | AVInt a => (- 2 ^ 63 <=? apsint_value a) && (apsint_value a <? 2 ^ 63)
  | AVFloat _ bits => (0 <=? bits) && (bits <? 2 ^ 64)
  | AVNullPointer | AVLValue _ => true
  | AVOther _ => false
  end.

Section Compute.

(** [EvaluateAsRValue] on each expression of the translation unit. *)
Variable evaluate : nat -> EvalResult.

Definition evaluate_expression (e : nat) (st : State) : bool * State :=
  let res := evaluate e in
  if negb (er_success res) then
    match er_diag res with
    | Some n => if (0 <? n)%nat then (false, set_error st diagnostics_message)
                else (false, st)
    | None => (false, st)
    end
  else
    let (i, h) := fill_info res (heap st) in
    (true, {| info := i; error := error st; heap := h |}).

Definition pathogen_ComputeConstantValue (cursor : CXCursor) (st : State)
    : bool * State :=
  match cursor with
  | CursorDecl d =>
      match d with
      | Some (DVar NoInit) => (false, st)
      | Some (DVar (Init e)) => evaluate_expression e st
      | _ => (false, set_error st not_var_or_expr_message)
      end
  | CursorExpr e => evaluate_expression e st
  | CursorOther => (false, set_error st not_var_or_expr_message)
  end.

End Compute.

(** [pathogen_DeletePathogenConstantValueInfo]; [None] is a null [info]. *)
Definition pathogen_DeletePathogenConstantValueInfo (i : option Info) (h : Heap)
    : Outcome (option Info * Heap) :=
  match i with
  | Some i =>
      if (Kind i =? String) && negb (Value i =? 0) then
        match free h (Value i) with
        | Returns h' =>
            Returns (Some {| HasSideEffects := HasSideEffects i;
                             HasUndefinedBehavior := HasUndefinedBehavior i;
                             Kind := Kind i; SubKind := SubKind i; Value := 0 |}, h')
        | NullDereference => NullDereference
        | InvalidFree => InvalidFree
        end
      else Returns (Some i, h)
  | None => Returns (None, h)
  end.

End ConstantValue.

(** ** pathogen_GetTypeSizes *)

(** [PathogenTypeSizes]: thirteen [int]s. *)
Record PathogenTypeSizes := {
  sz_PathogenTypeSizes : Z;
  sz_PathogenRecordLayout : Z;
  sz_PathogenRecordField : Z;
  sz_PathogenVTable : Z;
  sz_PathogenVTableEntry : Z;
  sz_PathogenOperatorOverloadInfo : Z;
  sz_PathogenConstantString : Z;
  sz_PathogenConstantValueInfo : Z;
  sz_PathogenMacroInformation : Z;
  sz_PathogenTemplateInstantiationMetrics : Z;
  sz_PathogenCodeGenerator : Z;
  sz_PathogenArgumentInfo : Z;
  sz_PathogenArrangedFunction : Z;
}.

Section TypeSizes.

(** The [sizeof] of each struct on the target the library is built for,
    in the field order of [PathogenTypeSizes]. *)
Variable sizeof : PathogenTypeSizes.

Definition pathogen_GetTypeSizes (sizes : PathogenTypeSizes) : bool * PathogenTypeSizes :=
  if negb (sz_PathogenTypeSizes sizes =? sz_PathogenTypeSizes sizeof) then (false, sizes)
  else (true,
    {| sz_PathogenTypeSizes := sz_PathogenTypeSizes sizes;
       sz_PathogenRecordLayout := sz_PathogenRecordLayout sizeof;
       sz_PathogenRecordField := sz_PathogenRecordField sizeof;
       sz_PathogenVTable := sz_PathogenVTable sizeof;
       sz_PathogenVTableEntry := sz_PathogenVTableEntry sizeof;
       sz_PathogenOperatorOverloadInfo := sz_PathogenOperatorOverloadInfo sizeof;
       sz_PathogenConstantString := sz_PathogenConstantString sizeof;
       sz_PathogenConstantValueInfo := sz_PathogenConstantValueInfo sizeof;
       sz_PathogenMacroInformation := sz_PathogenMacroInformation sizeof;
       sz_PathogenTemplateInstantiationMetrics := sz_PathogenTemplateInstantiationMetrics sizeof;
       sz_PathogenCodeGenerator := sz_PathogenCodeGenerator sizeof;
       sz_PathogenArgumentInfo := sz_PathogenArgumentInfo sizeof;
       sz_PathogenArrangedFunction := sz_PathogenArrangedFunction sizeof |}).

End TypeSizes.

(** ** Sample inputs *)

Definition sample_ctx (ms : bool) : ASTContext :=
  {| ctx_is_microsoft := ms; ctx_char_width := 8%positive |}.

(** [struct S { virtual void f(); int a; char b : 3; char c : 4; };] on a
    64-bit target: [a] at byte 8, [b] and [c] sharing byte 12. *)
Definition sample_fields : list FieldDecl :=
  [ {| fd_name := "a"; fd_type := 1; fd_bit_width := None |};
    {| fd_name := "b"; fd_type := 2; fd_bit_width := Some 3 |};
    {| fd_name := "c"; fd_type := 2; fd_bit_width := Some 4 |} ].

Definition sample_record_layout : ASTRecordLayout :=
  {| rl_size := 16; rl_alignment := 8; rl_nv_size := 16; rl_nv_alignment := 8;
     rl_primary_base := None; rl_has_own_vfptr := true; rl_has_own_vbptr := false;
     rl_vbptr_offset := 0;
     rl_field_offset := fun i => match i with 0%nat => 64%N | 1%nat => 96%N | _ => 99%N end;
     rl_base_offset := fun _ => 0; rl_vbase_offset := fun _ => 0;
     rl_has_vtordisp := fun _ => false |}.

Definition sample_cxx : CXXRecordInfo :=
  {| cx_is_dynamic := true; cx_bases := []; cx_vbases := [];
     cx_ms_vftables := [[ {| vc_kind := 4; vc_payload := 1 |} ]];
     cx_itanium_vtable := [ {| vc_kind := 2; vc_payload := 0 |};
                            {| vc_kind := 3; vc_payload := 0 |};
                            {| vc_kind := 4; vc_payload := 1 |} ] |}.

Definition sample_record : RecordDecl :=
  {| rd_has_definition := true; rd_cxx := Some sample_cxx; rd_fields := sample_fields;
     rd_layout := sample_record_layout; rd_arg_passing := 0 |}.

Definition sample_cursor : CXCursor := CursorDecl (Some (DRecord sample_record)).

(** The pattern of [template <class T> struct D : T { int x; };]: its one
    base is the template parameter [T], type id 9, the only dependent type
    of [sample_is_dependent_type]. *)
Definition sample_is_dependent_type (t : nat) : bool := Nat.eqb t 9.

Definition sample_dependent_cxx : CXXRecordInfo :=
  {| cx_is_dynamic := false;
     cx_bases := [ {| bs_virtual := false; bs_type := 9; bs_record := 9 |} ];
     cx_vbases := []; cx_ms_vftables := []; cx_itanium_vtable := [] |}.

Definition sample_dependent_record : RecordDecl :=
  {| rd_has_definition := true; rd_cxx := Some sample_dependent_cxx;
     rd_fields := [ {| fd_name := "x"; fd_type := 1; fd_bit_width := None |} ];
     rd_layout := sample_record_layout; rd_arg_passing := 0 |}.

Definition sample_dependent_cursor : CXCursor :=
  CursorDecl (Some (DRecord sample_dependent_record)).

(** ** Notions used in the statements *)

(** Two slots in offset order. *)
Definition offset_le (a b : PathogenRecordField) : Prop := Offset a <= Offset b.

(** The slots at offset [o], in list order. *)
Definition slots_at (o : Z) (fs : list PathogenRecordField) : list PathogenRecordField :=
  filter (fun f => Offset f =? o) fs.

(** The fields of a layout after a sequence of [AddField] calls. *)
Definition insert_all (acc : list PathogenRecordField) (ins : list PathogenRecordField) :=
  fold_left (fun fs f => insert_field f fs) ins acc.

(** The cursor shapes whose expression is folded. *)
Definition folds (cursor : CXCursor) (e : nat) : Prop :=
  cursor = CursorExpr e \/ cursor = CursorDecl (Some (DVar (Init e))).

(** ** More sample inputs *)

Definition sample_sizeof : PathogenTypeSizes :=
  {| sz_PathogenTypeSizes := 52; sz_PathogenRecordLayout := 56;
     sz_PathogenRecordField := 96; sz_PathogenVTable := 24;
     sz_PathogenVTableEntry := 80; sz_PathogenOperatorOverloadInfo := 32;
     sz_PathogenConstantString := 16; sz_PathogenConstantValueInfo := 24;
     sz_PathogenMacroInformation := 48; sz_PathogenTemplateInstantiationMetrics := 24;
     sz_PathogenCodeGenerator := 16; sz_PathogenArgumentInfo := 40;
     sz_PathogenArrangedFunction := 64 |}.

Definition sample_sizes_request (n : Z) : PathogenTypeSizes :=
  {| sz_PathogenTypeSizes := n; sz_PathogenRecordLayout := 0;
     sz_PathogenRecordField := 0; sz_PathogenVTable := 0;
     sz_PathogenVTableEntry := 0; sz_PathogenOperatorOverloadInfo := 0;
     sz_PathogenConstantString := 0; sz_PathogenConstantValueInfo := 0;
     sz_PathogenMacroInformation := 0; sz_PathogenTemplateInstantiationMetrics := 0;
     sz_PathogenCodeGenerator := 0; sz_PathogenArgumentInfo := 0;
     sz_PathogenArrangedFunction := 0 |}.

(** Sample folds: [-1] as a 32-bit [int] and [200] as an [unsigned char]. *)
Definition int_result (a : ConstantValue.APSInt) : ConstantValue.EvalResult :=
  {| ConstantValue.er_success := true; ConstantValue.er_diag := None;
     ConstantValue.er_side_effects := false;
     ConstantValue.er_undefined_behavior := false;
     ConstantValue.er_val := ConstantValue.AVInt a |}.

Definition minus_one_i32 : ConstantValue.APSInt :=
  {| ConstantValue.ai_width := 32; ConstantValue.ai_signed := true;
     ConstantValue.ai_bits := 2 ^ 32 - 1 |}.

Definition two_hundred_u8 : ConstantValue.APSInt :=
  {| ConstantValue.ai_width := 8; ConstantValue.ai_signed := false;
     ConstantValue.ai_bits := 200 |}.

Definition sample_info : ConstantValue.Info :=
  {| ConstantValue.HasSideEffects := false; ConstantValue.HasUndefinedBehavior := false;
     ConstantValue.Kind := 0; ConstantValue.SubKind := 0; ConstantValue.Value := 0 |}.

Definition sample_state : ConstantValue.State :=
  {| ConstantValue.info := sample_info; ConstantValue.error := None;
     ConstantValue.heap := {| ConstantValue.next_addr := 1%positive;
                              ConstantValue.blocks := [] |} |}.

(** A folded string literal. *)
Definition string_result (sl : ConstantValue.StringLiteral) : ConstantValue.EvalResult :=
  {| ConstantValue.er_success := true; ConstantValue.er_diag := None;
     ConstantValue.er_side_effects := false;
     ConstantValue.er_undefined_behavior := false;
     ConstantValue.er_val := ConstantValue.AVLValue (ConstantValue.LBStringLiteral sl) |}.

Definition wide_literal : ConstantValue.StringLiteral :=
  {| ConstantValue.sl_kind := ConstantValue.WideChar;
     ConstantValue.sl_char_byte_width := 2;
     ConstantValue.sl_bytes := [104; 0; 105; 0; 0; 0] |}.

Definition failing_result (diag : option nat) : ConstantValue.EvalResult :=
  {| ConstantValue.er_success := false; ConstantValue.er_diag := diag;
     ConstantValue.er_side_effects := false;
     ConstantValue.er_undefined_behavior := false;
     ConstantValue.er_val := ConstantValue.AVOther 0 |}.

(** A string info whose payload is the block at address 1. *)
Definition sample_string_info : ConstantValue.Info :=
  {| ConstantValue.HasSideEffects := false; ConstantValue.HasUndefinedBehavior := false;
     ConstantValue.Kind := ConstantValue.String; ConstantValue.SubKind := ConstantValue.Utf8;
     ConstantValue.Value := 1 |}.

Definition sample_string_heap : ConstantValue.Heap :=
  {| ConstantValue.next_addr := 2%positive; ConstantValue.blocks := [(1, [2; 104; 105])] |}.

(** ** Layout notions for the slot bookkeeping *)

(** [getFieldOffset] is non-decreasing along the declaration order of the
    first [n] fields. *)
Definition field_offsets_monotone (l : ASTRecordLayout) (n : nat) : Prop :=
  forall i, (S i < n)%nat -> (rl_field_offset l i <= rl_field_offset l (S i))%N.

(** Every [getVBaseClassOffset] of the class stays far enough above the
    lowest [int64_t] for [offset - 4] not to wrap. *)
Definition vbase_offsets_in_range (cx : CXXRecordInfo) (l : ASTRecordLayout) : Prop :=
  forall b, In b (cx_vbases cx) ->
    - 2 ^ 63 + 4 <= rl_vbase_offset l (bs_record b) < 2 ^ 63.

(** ** pathogen_getOperatorOverloadInfo *)

(** [PathogenOperatorOverloadInfo]; a null [const char*] is [None]. *)
Record PathogenOperatorOverloadInfo := {
  oo_Kind : Z;
  oo_Name : option string;
  oo_Spelling : option string;
  oo_IsUnary : bool;
  oo_IsBinary : bool;
  oo_IsMemberOnly : bool;
}.

(** One [OVERLOADED_OPERATOR(Name, Spelling, Token, Unary, Binary,
    MemberOnly)] line of [clang/Basic/OperatorKinds.def]. *)
Record OverloadedOperatorDef := {
  od_name : string;
  od_spelling : string;
  od_unary : bool;
  od_binary : bool;
  od_member_only : bool;
}.

Section OperatorTable.

(** The lines of [OperatorKinds.def], in file order. Clang's [OO_*]
    enumerators are generated from the same lines after [OO_None], and the
    [verify_operator_overload_kind] assertions tie [PathogenOperatorOverloadKind]
    to them, so the line at position [i] has kind [i + 1]. *)
Variable operator_defs : list OverloadedOperatorDef.

Definition NUM_OVERLOADED_OPERATORS : Z := Z.of_nat (List.length operator_defs) + 1.

(** The entries the [OVERLOADED_OPERATOR] macro expands to. *)
Fixpoint operator_entries (kind : Z) (defs : list OverloadedOperatorDef)
    : list PathogenOperatorOverloadInfo :=
  match defs with
  | [] => []
  | d :: rest =>
      {| oo_Kind := kind; oo_Name := Some (od_name d); oo_Spelling := Some (od_spelling d);
         oo_IsUnary := od_unary d; oo_IsBinary := od_binary d;
         oo_IsMemberOnly := od_member_only d |} :: operator_entries (kind + 1) rest
  end.

(** [OperatorInformation]: the [OO_None] entry, one entry per operator, and
    the [Invalid] entry in the [NUM_OVERLOADED_OPERATORS] slot. *)
Definition OperatorInformation : list PathogenOperatorOverloadInfo :=
  {| oo_Kind := 0; oo_Name := None; oo_Spelling := None;
     oo_IsUnary := false; oo_IsBinary := false; oo_IsMemberOnly := false |} ::
  operator_entries 1 operator_defs ++
  [{| oo_Kind := NUM_OVERLOADED_OPERATORS; oo_Name := None; oo_Spelling := None;
      oo_IsUnary := false; oo_IsBinary := false; oo_IsMemberOnly := false |}].

(** The result is [nullptr] ([None]) or [&OperatorInformation[index]];
    [getOverloadedOperator] is what the cursor's [FunctionDecl] answers. *)
Definition pathogen_getOperatorOverloadInfo (getOverloadedOperator : Z) (cursor : CXCursor)
    : option Z :=
  if negb (clang_isDeclaration cursor) then None
  else match cursor with
       | CursorDecl (Some DFunction) =>
           let operatorKind := getOverloadedOperator in
           let operatorKind :=
             if (operatorKind <? 0) || (NUM_OVERLOADED_OPERATORS <? operatorKind)
             then NUM_OVERLOADED_OPERATORS else operatorKind in
           Some operatorKind
       | _ => None
       end.

(** Reading [OperatorInformation[index]]; [None] is a read outside the array. *)
Definition read_operator_info (index : Z) : option PathogenOperatorOverloadInfo :=
  if index <? 0 then None else nth_error OperatorInformation (Z.to_nat index).

End OperatorTable.

(** ** Class template specializations *)

Inductive TemplateSpecializationKind :=
| TSK_Undeclared
| TSK_ImplicitInstantiation
| TSK_ExplicitSpecialization
| TSK_ExplicitInstantiationDeclaration
| TSK_ExplicitInstantiationDefinition.

Definition TemplateSpecializationKind_value (k : TemplateSpecializationKind) : Z :=
  match k with
  | TSK_Undeclared => 0
  | TSK_ImplicitInstantiation => 1
  | TSK_ExplicitSpecialization => 2
  | TSK_ExplicitInstantiationDeclaration => 3
  | TSK_ExplicitInstantiationDefinition => 4
  end.

(** [PathogenTemplateSpecializationKind] values used by the code. *)
Definition PathogenTSK_Invalid : Z := 0.
Definition PathogenTSK_Undeclared : Z := 1.

(** A [ClassTemplateSpecializationDecl]: its id, whether the templated
    declaration of its template has a definition, whether it is a
    [ClassTemplatePartialSpecializationDecl], its specialization kind when
    the code reads it, and what [Sema::InstantiateClassTemplateSpecialization]
    returns for it (true on failure). *)
Record ClassTemplateSpecializationDecl := {
  ctsd_id : nat;
  ctsd_template_has_definition : bool;
  ctsd_is_partial : bool;
  ctsd_specialization_kind : TemplateSpecializationKind;
  ctsd_instantiation_fails : bool;
}.


Section Templates.

(** [dyn_cast_or_null<ClassTemplateSpecializationDecl>] on a record. *)
Variable as_specialization : RecordDecl -> option ClassTemplateSpecializationDecl.

Definition cursor_specialization (cursor : CXCursor) : option ClassTemplateSpecializationDecl :=
  match cursor_record cursor with
  | Some r => as_specialization r
  | None => None
  end.

Definition pathogen_GetSpecializationKind (cursor : CXCursor) : Z :=
  if negb (clang_isDeclaration cursor) then PathogenTSK_Invalid
  else match cursor_specialization cursor with
       | None => PathogenTSK_Invalid
       | Some s => TemplateSpecializationKind_value (ctsd_specialization_kind s) + 1
       end.

(** The result, and the ids of the specializations handed to
    [Sema::InstantiateClassTemplateSpecialization], in call order. *)
Definition pathogen_InstantiateSpecializedClassTemplate (cursor : CXCursor)
    : bool * list nat :=
  if negb (clang_isDeclaration cursor) then (false, [])
  else match cursor_specialization cursor with
       | None => (false, [])
       | Some s =>
           match ctsd_specialization_kind s with
           | TSK_Undeclared => (negb (ctsd_instantiation_fails s), [ctsd_id s])
           | _ => (true, [])
           end
       end.


End Templates.

(** ** pathogen_IsFunctionTypeCallable *)

(** The [Diagnoser] object of the function. *)
Record Diagnoser := {
  IsHandlingParameters : bool;
  Diagnostics : list string;
  DiagnosticWasReceived : bool;
}.

Section Callable.

(** Types are identified by numbers. [RequireCompleteType] answers whether
    it failed and how many times it called [diagnose]; [print_type] is
    [QualType::print] with the translation unit's printing policy. *)
Variable isVoidType : nat -> bool.
Variable isIncompleteType : nat -> bool.
Variable RequireCompleteType : nat -> bool * nat.
Variable print_type : nat -> string.

Definition incomplete_message (parameters : bool) (type : nat) : string :=
  (if parameters then "Argument type '" else "Return type '") ++
  print_type type ++ "' is incomplete.".

Definition emitDiagnostic (d : Diagnoser) (type : nat) : Diagnoser :=
  {| IsHandlingParameters := IsHandlingParameters d;
     Diagnostics := Diagnostics d ++ [incomplete_message (IsHandlingParameters d) type];
     DiagnosticWasReceived := true |}.

(** [n] calls of [diagnose] on the same type. *)
Fixpoint diagnose_times (n : nat) (d : Diagnoser) (type : nat) : Diagnoser :=
  match n with
  | O => d
  | S n => diagnose_times n (emitDiagnostic d type) type
  end.

Definition ensureDiagnosticEmitted (d : Diagnoser) (type : nat) : Diagnoser :=
  let d := if negb (DiagnosticWasReceived d) then emitDiagnostic d type else d in
  {| IsHandlingParameters := IsHandlingParameters d; Diagnostics := Diagnostics d;
     DiagnosticWasReceived := false |}.

(** [RequireCompleteType] with the diagnoser, then the failure handling. *)
Definition require_complete (isCallable : bool) (d : Diagnoser) (type : nat) : bool * Diagnoser :=
  let (fails, calls) := RequireCompleteType type in
  let d := diagnose_times calls d type in
  if fails then (false, ensureDiagnosticEmitted d type) else (isCallable, d).

Definition check_return_type (returnType : nat) (d : Diagnoser) : bool * Diagnoser :=
  if isVoidType returnType then (true, d)
  else if negb (isIncompleteType returnType) then (true, d)
  else require_complete true d returnType.

Definition check_parameter (acc : bool * Diagnoser) (parameterType : nat) : bool * Diagnoser :=
  let (isCallable, d) := acc in
  let d := {| IsHandlingParameters := IsHandlingParameters d; Diagnostics := Diagnostics d;
              DiagnosticWasReceived := false |} in
  require_complete isCallable d parameterType.

(** [isCallable] and the diagnoser at the final assertions. *)
Definition callable_checks (returnType : nat) (param_types : list nat) : bool * Diagnoser :=
  let d := {| IsHandlingParameters := false; Diagnostics := []; DiagnosticWasReceived := false |} in
  let (isCallable, d) := check_return_type returnType d in
  let d := {| IsHandlingParameters := true; Diagnostics := Diagnostics d;
              DiagnosticWasReceived := DiagnosticWasReceived d |} in
  fold_left check_parameter param_types (isCallable, d).

(** The returned [CXStringSet*]: [None] for [nullptr]. *)
Definition pathogen_IsFunctionTypeCallable (returnType : nat) (param_types : list nat)
    : option (list string) :=
  let (isCallable, d) := callable_checks returnType param_types in
  if isCallable then None else Some (Diagnostics d).

(** The [RequireCompleteType] calls the function makes that fail. *)
Definition failing_checks (returnType : nat) (param_types : list nat) : list (bool * nat) :=
  (if isVoidType returnType || negb (isIncompleteType returnType) then []
   else if fst (RequireCompleteType returnType) then [(false, returnType)] else []) ++
  map (fun p => (true, p)) (filter (fun p => fst (RequireCompleteType p)) param_types).

End Callable.

(** ** Argument and function arrangement *)

(** [ABIArgInfo::Kind]; the [verify_argument_kind] assertions make
    [PathogenArgumentKind] number them the same way. *)
Inductive ABIArgKind :=
| ABIDirect
| ABIExtend
| ABIIndirect
| ABIIndirectAliased
| ABIIgnore
| ABIExpand
| ABICoerceAndExpand
| ABIInAlloca.

Definition ABIArgKind_value (k : ABIArgKind) : Z :=
  match k with
  | ABIDirect => 0 | ABIExtend => 1 | ABIIndirect => 2 | ABIIndirectAliased => 3
  | ABIIgnore => 4 | ABIExpand => 5 | ABICoerceAndExpand => 6 | ABIInAlloca => 7
  end.

(** The answers [pathogen_CreateArgumentInfo] reads from an [ABIArgInfo]:
    [abi_has_coerce_to_type] is [canHaveCoerceToType() && getCoerceToType()
    != nullptr], [abi_has_padding_type] is [getPaddingType() != nullptr];
    each other accessor is only read under the kinds the code guards it by. *)
Record ABIArgInfo := {
  abi_kind : ABIArgKind;
  abi_has_coerce_to_type : bool;
  abi_has_padding_type : bool;
  abi_in_reg : bool;
  abi_can_be_flattened : bool;
  abi_sign_ext : bool;
  abi_indirect_byval : bool;
  abi_indirect_realign : bool;
  abi_sret_after_this : bool;
  abi_has_unpadded_coerce_and_expand_type : bool;
  abi_inalloca_sret : bool;
  abi_direct_offset : Z;        (* unsigned *)
  abi_indirect_align : Z;       (* getIndirectAlign().getQuantity(), int64_t *)
  abi_indirect_addr_space : Z;  (* unsigned *)
  abi_inalloca_field_index : Z; (* unsigned *)
}.

(** Reduction to [uint32_t]. *)
Definition to_uint32 (z : Z) : Z := z mod 2 ^ 32.

(** [PathogenArgumentFlags] values. *)
Module ArgumentFlags.
Definition HasCoerceToTypeType : Z := 1.
Definition HasPaddingType : Z := 2.
Definition HasUnpaddedCoerceAndExpandType : Z := 4.
Definition PaddingInRegister : Z := 8.
Definition IsInAllocaSRet : Z := 16.
Definition IsIndirectByVal : Z := 32.
Definition IsIndirectRealign : Z := 64.
Definition IsSRetAfterThis : Z := 128.
Definition IsInRegister : Z := 256.
Definition CanBeFlattened : Z := 512.
Definition IsSignExtended : Z := 1024.
End ArgumentFlags.

(** [flags |= flag] under a condition. *)
Definition set_flag (cond : bool) (flag flags : Z) : Z :=
  if cond then Z.lor flags flag else flags.

(** [PathogenArgumentInfo]. *)
Record PathogenArgumentInfo := {
  ArgType : CXType;
  ArgKind : Z;
  Flags : Z;
  Extra : Z;
  Extra2 : Z;
}.

(** [pathogen_CreateArgumentInfo] writing into [output]: the members it does
    not assign keep what [output] held. *)
Definition pathogen_CreateArgumentInfo (type : nat) (info : ABIArgInfo)
    (output : PathogenArgumentInfo) : PathogenArgumentInfo :=
  let flags := 0 in
  let flags := set_flag (abi_has_coerce_to_type info) ArgumentFlags.HasCoerceToTypeType flags in
  let flags := set_flag (abi_has_padding_type info) ArgumentFlags.HasPaddingType flags in
  let flags := set_flag (match abi_kind info with
                         | ABIDirect | ABIExtend | ABIIndirect => abi_in_reg info
                         | _ => false end) ArgumentFlags.IsInRegister flags in
  let mk flags extra extra2 :=
    {| ArgType := TDecl type; ArgKind := ABIArgKind_value (abi_kind info);
       Flags := flags; Extra := extra; Extra2 := extra2 |} in
  match abi_kind info with
  | ABIDirect =>
      mk (set_flag (abi_can_be_flattened info) ArgumentFlags.CanBeFlattened flags)
         (to_uint32 (abi_direct_offset info)) (Extra2 output)
  | ABIExtend =>
      mk (set_flag (abi_sign_ext info) ArgumentFlags.IsSignExtended flags)
         (to_uint32 (abi_direct_offset info)) (Extra2 output)
  | ABIIndirect =>
      let flags := set_flag (abi_indirect_byval info) ArgumentFlags.IsIndirectByVal flags in
      let flags := set_flag (abi_indirect_realign info) ArgumentFlags.IsIndirectRealign flags in
      let flags := set_flag (abi_sret_after_this info) ArgumentFlags.IsSRetAfterThis flags in
      mk flags (to_uint32 (abi_indirect_align info)) (Extra2 output)
  | ABIIndirectAliased =>
      mk (set_flag (abi_indirect_realign info) ArgumentFlags.IsIndirectRealign flags)
         (to_uint32 (abi_indirect_align info)) (to_uint32 (abi_indirect_addr_space info))
  | ABIIgnore | ABIExpand => mk flags 0 (Extra2 output)
  | ABICoerceAndExpand =>
      mk (set_flag (abi_has_unpadded_coerce_and_expand_type info)
            ArgumentFlags.HasUnpaddedCoerceAndExpandType flags) 0 (Extra2 output)
  | ABIInAlloca =>
      mk (set_flag (abi_inalloca_sret info) ArgumentFlags.IsInAllocaSRet flags)
         (to_uint32 (abi_inalloca_field_index info)) (Extra2 output)
  end.

(** The [CodeGen::CGFunctionInfo] queries of [pathogen_CreateArrangedFunction]. *)
Record CGFunctionInfo := {
  fi_calling_convention : Z;
  fi_effective_calling_convention : Z;
  fi_ast_calling_convention : Z;
  fi_num_required_args : Z;
  fi_reg_parm : Z;
  fi_return_type : nat;
  fi_return_info : ABIArgInfo;
  fi_arguments : list (nat * ABIArgInfo);
  fi_is_instance_method : bool;
  fi_is_chain_call : bool;
  fi_is_no_return : bool;
  fi_is_returns_retained : bool;
  fi_is_no_caller_saved_regs : bool;
  fi_has_reg_parm : bool;
  fi_is_no_cf_check : bool;
  fi_is_variadic : bool;
  fi_uses_inalloca : bool;
  fi_ext_parameter_infos : nat;
}.

(** [PathogenArrangedFunctionFlags] values. *)
Module ArrangedFunctionFlags.
Definition IsInstanceMethod : Z := 1.
Definition IsChainCall : Z := 2.
Definition IsNoReturn : Z := 4.
Definition IsReturnsRetained : Z := 8.
Definition IsNoCallerSavedRegs : Z := 16.
Definition HasRegParm : Z := 32.
Definition IsNoCfCheck : Z := 64.
Definition IsVariadic : Z := 128.
Definition UsesInAlloca : Z := 256.
Definition HasExtendedParameterInfo : Z := 512.
End ArrangedFunctionFlags.

(** [PathogenArrangedFunction] followed by its trailing argument array. *)
Record PathogenArrangedFunction := {
  CallingConvention : Z;
  EffectiveCallingConvention : Z;
  AstCallingConvention : Z;
  FunctionFlags : Z;
  RequiredArgumentCount : Z;
  ArgumentsPassedInRegisterCount : Z;
  ArgumentCount : Z;
  ReturnInfo : PathogenArgumentInfo;
  Arguments : list PathogenArgumentInfo;
}.

(** The flags of the arranged function, set one after the other. *)
Definition arranged_function_flags (function : CGFunctionInfo) : Z :=
  let flags := 0 in
  let flags := set_flag (fi_is_instance_method function) ArrangedFunctionFlags.IsInstanceMethod flags in
  let flags := set_flag (fi_is_chain_call function) ArrangedFunctionFlags.IsChainCall flags in
  let flags := set_flag (fi_is_no_return function) ArrangedFunctionFlags.IsNoReturn flags in
  let flags := set_flag (fi_is_returns_retained function) ArrangedFunctionFlags.IsReturnsRetained flags in
  let flags := set_flag (fi_is_no_caller_saved_regs function) ArrangedFunctionFlags.IsNoCallerSavedRegs flags in
  let flags := set_flag (fi_has_reg_parm function) ArrangedFunctionFlags.HasRegParm flags in
  let flags := set_flag (fi_is_no_cf_check function) ArrangedFunctionFlags.IsNoCfCheck flags in
  let flags := set_flag (fi_is_variadic function) ArrangedFunctionFlags.IsVariadic flags in
  let flags := set_flag (fi_uses_inalloca function) ArrangedFunctionFlags.UsesInAlloca flags in
  set_flag (0 <? fi_ext_parameter_infos function)%nat
    ArrangedFunctionFlags.HasExtendedParameterInfo flags.

(** The argument descriptors, each written over the [malloc]ed memory of its
    slot ([memory (S i)] for argument [i]). *)
Fixpoint create_arguments (memory : nat -> PathogenArgumentInfo) (i : nat)
    (arguments : list (nat * ABIArgInfo)) : list PathogenArgumentInfo :=
  match arguments with
  | [] => []
  | (type, info) :: rest =>
      pathogen_CreateArgumentInfo type info (memory (S i)) :: create_arguments memory (S i) rest
  end.

(** [pathogen_CreateArrangedFunction]; [memory] is what the fresh [malloc]
    block holds: slot [0] for [ReturnInfo], slot [S i] for argument [i]. *)
Definition pathogen_CreateArrangedFunction (memory : nat -> PathogenArgumentInfo)
    (function : CGFunctionInfo) : PathogenArrangedFunction :=
  {| CallingConvention := fi_calling_convention function mod 2 ^ 8;
     EffectiveCallingConvention := fi_effective_calling_convention function mod 2 ^ 8;
     AstCallingConvention := fi_ast_calling_convention function mod 2 ^ 8;
     RequiredArgumentCount := to_uint32 (fi_num_required_args function);
     ArgumentsPassedInRegisterCount := to_uint32 (fi_reg_parm function);
     ArgumentCount := to_uint32 (Z.of_nat (List.length (fi_arguments function)));
     ReturnInfo := pathogen_CreateArgumentInfo (fi_return_type function)
                     (fi_return_info function) (memory O);
     Arguments := create_arguments memory O (fi_arguments function);
     FunctionFlags := arranged_function_flags function |}.

(** ** Heap notions for the constant payloads *)

(** Every allocated block lies below the next fresh address. *)
Definition heap_fresh (h : ConstantValue.Heap) : Prop :=
  forall b, In b (ConstantValue.blocks h) -> fst b < Zpos (ConstantValue.next_addr h).

(** ** Samples for the layout properties *)

(** A C [struct] with a bit-field: [struct P { int x; unsigned y : 5; };]. *)
Definition sample_plain_record : RecordDecl :=
  {| rd_has_definition := true; rd_cxx := None;
     rd_fields := [ {| fd_name := "x"; fd_type := 1; fd_bit_width := None |};
                    {| fd_name := "y"; fd_type := 3; fd_bit_width := Some 5 |} ];
     rd_layout := {| rl_size := 8; rl_alignment := 4; rl_nv_size := 0; rl_nv_alignment := 0;
                     rl_primary_base := None; rl_has_own_vfptr := false;
                     rl_has_own_vbptr := false; rl_vbptr_offset := 0;
                     rl_field_offset := fun i => match i with 0%nat => 0%N | _ => 32%N end;
                     rl_base_offset := fun _ => 0; rl_vbase_offset := fun _ => 0;
                     rl_has_vtordisp := fun _ => false |};
     rd_arg_passing := 0 |}.

(** A class with one virtual base that has a vtordisp, at offset 16. *)
Definition sample_vbase_cxx : CXXRecordInfo :=
  {| cx_is_dynamic := true; cx_bases := [];
     cx_vbases := [ {| bs_virtual := true; bs_type := 7; bs_record := 7 |} ];
     cx_ms_vftables := []; cx_itanium_vtable := [] |}.

Definition sample_vbase_record : RecordDecl :=
  {| rd_has_definition := true; rd_cxx := Some sample_vbase_cxx; rd_fields := [];
     rd_layout := {| rl_size := 24; rl_alignment := 8; rl_nv_size := 8; rl_nv_alignment := 8;
                     rl_primary_base := None; rl_has_own_vfptr := false;
                     rl_has_own_vbptr := true; rl_vbptr_offset := 0;
                     rl_field_offset := fun _ => 0%N;
                     rl_base_offset := fun _ => 0; rl_vbase_offset := fun _ => 16;
                     rl_has_vtordisp := fun _ => true |};
     rd_arg_passing := 0 |}.

(** The slot of the bit-field [y] of [sample_plain_record]. *)
Definition sample_plain_y : PathogenRecordField :=
  normal_field (sample_ctx false) (rd_layout sample_plain_record) 1
    {| fd_name := "y"; fd_type := 3; fd_bit_width := Some 5 |}.

(** ** Macro enumeration *)

Module Macros.

(** [PathogenMacroVardicKind]. *)
Inductive PathogenMacroVardicKind :=
| VardicNone
| C99
| Gnu.

Definition PathogenMacroVardicKind_value (k : PathogenMacroVardicKind) : Z :=
  match k with VardicNone => 0 | C99 => 1 | Gnu => 2 end.

(** The [MacroInfo] queries of [pathogen_EnumerateMacros]. *)
Record MacroInfo := {
  mi_is_function_like : bool;
  mi_is_builtin_macro : bool;
  mi_has_comma_pasting : bool;
  mi_is_c99_varargs : bool;
  mi_is_gnu_varargs : bool;
  mi_params : list string;
}.

(** [MacroDirective::getDefinition()]: the location, whether it is undefined,
    and [getMacroInfo()] ([None] for [nullptr]). *)
Record DefInfo := {
  def_location : nat;
  def_is_undefined : bool;
  def_macro_info : option MacroInfo;
}.

(** The identifier table in iteration order: each key with the result of
    [getLocalMacroDirectiveHistory] ([None] for [nullptr]), seen through
    [getDefinition()]. *)
Definition IdentifierTable := list (string * option DefInfo).

(** [PathogenMacroInformation] as passed to the enumerator. *)
Record PathogenMacroInformation := {
  Name : string;
  NameLength : Z;
  Location : nat;
  WasUndefined : bool;
  IsFunctionLike : bool;
  IsBuiltInMacro : bool;
  HasCommaPasting : bool;
  VardicKind : PathogenMacroVardicKind;
  ParameterCount : Z;
  ParameterNames : list string;
  ParameterNameLengths : list Z;
}.

Definition pathogen_GetPreprocessorIdentifierCount (table : IdentifierTable) : Z :=
  to_uint32 (Z.of_nat (List.length table)).

Definition macro_information (key : string) (definition : DefInfo) (macroInfo : MacroInfo)
    : PathogenMacroInformation :=
  {| Name := key;
     NameLength := Z.of_nat (String.length key);
     Location := def_location definition;
     WasUndefined := def_is_undefined definition;
     IsFunctionLike := mi_is_function_like macroInfo;
     IsBuiltInMacro := mi_is_builtin_macro macroInfo;
     HasCommaPasting := mi_has_comma_pasting macroInfo;
     VardicKind := if mi_is_c99_varargs macroInfo then C99
                   else if mi_is_gnu_varargs macroInfo then Gnu else VardicNone;
     ParameterCount := to_int32 (Z.of_nat (List.length (mi_params macroInfo)));
     ParameterNames := mi_params macroInfo;
     ParameterNameLengths :=
       map (fun p => Z.of_nat (String.length p)) (mi_params macroInfo) |}.

(** [pathogen_EnumerateMacros]: the sequence of [enumerator] calls, or the
    null dereference of a definition without [MacroInfo]. *)
Fixpoint pathogen_EnumerateMacros (table : IdentifierTable)
    : Outcome (list PathogenMacroInformation) :=
  match table with
  | [] => Returns []
  | (_, None) :: rest => pathogen_EnumerateMacros rest
  | (key, Some definition) :: rest =>
      match def_macro_info definition with
      | None => NullDereference
      | Some macroInfo =>
          match pathogen_EnumerateMacros rest with
          | Returns calls => Returns (macro_information key definition macroInfo :: calls)
          | NullDereference => NullDereference
          | InvalidFree => InvalidFree
          end
      end
  end.

(** The keys of the identifiers that have a macro directive. *)
Definition macro_keys (table : IdentifierTable) : list string :=
  map fst (filter (fun e => isSome (snd e)) table).

(** Every macro directive's definition carries a [MacroInfo]. *)
Definition definitions_complete (table : IdentifierTable) : Prop :=
  forall key d, In (key, Some d) table -> def_macro_info d <> None.

(** A table with a function-like macro [M(a, bc)], a plain identifier and
    an object-like macro [N] that was later undefined. *)
Definition sample_table : IdentifierTable :=
  [("M", Some {| def_location := 3; def_is_undefined := false;
                 def_macro_info := Some {| mi_is_function_like := true;
                   mi_is_builtin_macro := false; mi_has_comma_pasting := false;
                   mi_is_c99_varargs := false; mi_is_gnu_varargs := false;
                   mi_params := ["a"; "bc"] |} |});
   ("x", None);
   ("N", Some {| def_location := 7; def_is_undefined := true;
                 def_macro_info := Some {| mi_is_function_like := false;
                   mi_is_builtin_macro := false; mi_has_comma_pasting := false;
                   mi_is_c99_varargs := false; mi_is_gnu_varargs := false;
                   mi_params := [] |} |})].

End Macros.

(** ** Samples for the arranged functions *)

(** An argument passed directly, with a coerce-to type, that can be flattened. *)
Definition sample_direct_arg : ABIArgInfo :=
  {| abi_kind := ABIDirect; abi_has_coerce_to_type := true; abi_has_padding_type := false;
     abi_in_reg := false; abi_can_be_flattened := true; abi_sign_ext := false;
     abi_indirect_byval := false; abi_indirect_realign := false; abi_sret_after_this := false;
     abi_has_unpadded_coerce_and_expand_type := false; abi_inalloca_sret := false;
     abi_direct_offset := 0; abi_indirect_align := 0; abi_indirect_addr_space := 0;
     abi_inalloca_field_index := 0 |}.

(** [int f(int, int)] as a plain C function. *)
Definition sample_function : CGFunctionInfo :=
  {| fi_calling_convention := 0; fi_effective_calling_convention := 0;
     fi_ast_calling_convention := 0; fi_num_required_args := 2; fi_reg_parm := 0;
     fi_return_type := 1; fi_return_info := sample_direct_arg;
     fi_arguments := [(1%nat, sample_direct_arg); (1%nat, sample_direct_arg)];
     fi_is_instance_method := false; fi_is_chain_call := false; fi_is_no_return := false;
     fi_is_returns_retained := false; fi_is_no_caller_saved_regs := false;
     fi_has_reg_parm := false; fi_is_no_cf_check := false; fi_is_variadic := false;
     fi_uses_inalloca := false; fi_ext_parameter_infos := 0 |}.

(** Freshly [malloc]ed argument slots, all holding the same garbage. *)
Definition sample_argument_memory (slot : nat) : PathogenArgumentInfo :=
  {| ArgType := TVoidPtr; ArgKind := 0; Flags := 0; Extra := 0; Extra2 := 42 |}.

(** * Properties *)

(** ** Ordered insertion of layout slots *)

Module SlotOrder.

Lemma insert_field_in : forall f g fs,
  In g (insert_field f fs) <-> g = f \/ In g fs.
Proof.
  intros f g fs; induction fs as [|h t IH]; simpl.
  - split; intros H; intuition (subst; auto).
  - destruct (Offset h <=? Offset f); simpl; rewrite ?IH;
      split; intros H; intuition (subst; auto).
Qed.

Lemma insert_field_strongly_sorted : forall f fs,
  StronglySorted offset_le fs -> StronglySorted offset_le (insert_field f fs).
Proof.
  unfold offset_le; intros f fs; induction fs as [|h t IH]; intros Hs; simpl.
  - repeat constructor.
  - inversion Hs as [|? ? Ht Hall]; subst.
    destruct (Offset h <=? Offset f) eqn:E.
    + apply Z.leb_le in E. constructor; [now apply IH|].
      apply Forall_forall; intros g Hg; apply insert_field_in in Hg.
      destruct Hg as [->|Hg]; [lia|].
      rewrite Forall_forall in Hall; now apply Hall.
    + apply Z.leb_gt in E. constructor; [assumption|].
      constructor; [lia|].
      rewrite Forall_forall in Hall |- *; intros g Hg; specialize (Hall g Hg); lia.
Qed.

Lemma filter_none {A} (p : A -> bool) (l : list A) :
  (forall x, In x l -> p x = false) -> filter p l = [].
Proof.
  induction l as [|x l IH]; simpl; intros H; [reflexivity|].
  rewrite H by auto. apply IH; auto.
Qed.

Lemma slots_at_insert : forall o f fs,
  StronglySorted offset_le fs ->
  slots_at o (insert_field f fs) = slots_at o fs ++ slots_at o [f].
Proof.
  unfold slots_at, offset_le; intros o f fs; induction fs as [|h t IH]; intros Hs.
  - reflexivity.
  - inversion Hs as [|? ? Ht Hall]; subst; simpl.
    destruct (Offset h <=? Offset f) eqn:E.
    + simpl. rewrite (IH Ht). destruct (Offset h =? o); reflexivity.
    + apply Z.leb_gt in E.
      destruct (Offset f =? o) eqn:Efo.
      * apply Z.eqb_eq in Efo.
        assert (Hh : (Offset h =? o) = false) by (apply Z.eqb_neq; lia).
        assert (Hnil : filter (fun g => Offset g =? o) t = []).
        { apply filter_none; intros g Hg; apply Z.eqb_neq.
          rewrite Forall_forall in Hall; specialize (Hall g Hg); lia. }
        simpl. rewrite Hh, Hnil. subst o. rewrite Z.eqb_refl. reflexivity.
      * simpl. rewrite Efo, app_nil_r. reflexivity.
Qed.

Lemma fold_AddField_fields : forall ins l,
  FirstField (fold_left AddField ins l) = insert_all (FirstField l) ins.
Proof.
  induction ins as [|f ins IH]; intros l; simpl; [reflexivity|].
  rewrite IH. reflexivity.
Qed.

Lemma fold_AddVTableLayout_fields : forall vts l,
  FirstField (fold_left AddVTableLayout vts l) = FirstField l.
Proof.
  induction vts as [|v vts IH]; intros l; simpl; [reflexivity|].
  rewrite IH. reflexivity.
Qed.

Lemma build_layout_fields : forall ctx r,
  FirstField (build_layout ctx r) = insert_all [] (layout_insertions ctx r).
Proof.
  intros ctx r; unfold build_layout.
  rewrite fold_AddVTableLayout_fields, fold_AddField_fields. reflexivity.
Qed.

Lemma insert_all_sorted : forall ins acc,
  StronglySorted offset_le acc -> StronglySorted offset_le (insert_all acc ins).
Proof.
  induction ins as [|f ins IH]; intros acc Hs; simpl; [assumption|].
  apply IH, insert_field_strongly_sorted, Hs.
Qed.

Lemma insert_all_slots_at : forall o ins acc,
  StronglySorted offset_le acc ->
  slots_at o (insert_all acc ins) = slots_at o acc ++ slots_at o ins.
Proof.
  induction ins as [|f ins IH]; intros acc Hs; simpl.
  - now rewrite app_nil_r.
  - rewrite IH by (now apply insert_field_strongly_sorted).
    rewrite slots_at_insert by assumption.
    rewrite <- app_assoc. unfold slots_at; simpl.
    destruct (Offset f =? o); reflexivity.
Qed.

(** The scan of [AddField] stops at the first slot whose offset is strictly
    greater than the new one. *)
Lemma insert_field_split : forall f fs,
  exists pre post,
    fs = pre ++ post /\
    Forall (fun g => Offset g <= Offset f) pre /\
    match post with [] => True | g :: _ => Offset f < Offset g end /\
    insert_field f fs = pre ++ f :: post.
Proof.
  intros f fs; induction fs as [|h t IH]; simpl.
  - exists [], []; repeat split; constructor.
  - destruct (Offset h <=? Offset f) eqn:E.
    + apply Z.leb_le in E. destruct IH as (pre & post & -> & Hpre & Hpost & ->).
      exists (h :: pre), post; repeat split; try assumption.
      now constructor.
    + apply Z.leb_gt in E. exists [], (h :: t); repeat split; try constructor; lia.
Qed.

End SlotOrder.

Example sample_layout_names :
  option_map (fun l => map Name (FirstField l))
    (pathogen_GetRecordLayout (sample_ctx false) sample_cursor)
  = Some ["vtable_pointer"; "a"; "b"; "c"].
Proof. reflexivity. Qed.

Example sample_layout_names_ms :
  option_map (fun l => map Name (FirstField l))
    (pathogen_GetRecordLayout (sample_ctx true) sample_cursor)
  = Some ["vftable_pointer"; "a"; "b"; "c"].
Proof. reflexivity. Qed.

Example sample_layout_bitfield_c :
  option_map (fun l => map (fun f => (Offset f, BitFieldStart f)) (FirstField l))
    (pathogen_GetRecordLayout (sample_ctx false) sample_cursor)
  = Some [(0, 0); (8, 0); (12, 0); (12, 3)].
Proof. reflexivity. Qed.

(** ** Virtual-pointer slots *)

Module VPtr.

Lemma count_kind_app : forall k a b,
  count_kind k (a ++ b) = (count_kind k a + count_kind k b)%nat.
Proof.
  intros k a b; unfold count_kind. rewrite filter_app, length_app. reflexivity.
Qed.

Lemma count_kind_insert : forall k f fs,
  count_kind k (insert_field f fs) = (count_kind k fs + count_kind k [f])%nat.
Proof.
  intros k f fs; induction fs as [|h t IH]; simpl; [reflexivity|].
  destruct (Offset h <=? Offset f); unfold count_kind in *; simpl in *.
  - destruct (PathogenRecordFieldKind_eqb (Kind h) k); simpl; rewrite IH; reflexivity.
  - destruct (PathogenRecordFieldKind_eqb (Kind f) k), (PathogenRecordFieldKind_eqb (Kind h) k);
      simpl; lia.
Qed.

Lemma count_kind_insert_all : forall k ins acc,
  count_kind k (insert_all acc ins) = (count_kind k acc + count_kind k ins)%nat.
Proof.
  intros k ins; induction ins as [|f ins IH]; intros acc; simpl.
  - unfold count_kind; simpl; lia.
  - rewrite IH, count_kind_insert.
    replace (f :: ins) with ([f] ++ ins) by reflexivity.
    rewrite count_kind_app. lia.
Qed.

Lemma count_kind_none : forall k fs,
  (forall g, In g fs -> Kind g <> k) -> count_kind k fs = 0%nat.
Proof.
  intros k fs H; unfold count_kind.
  rewrite (SlotOrder.filter_none _ fs); [reflexivity|].
  intros g Hg; specialize (H g Hg).
  destruct (Kind g), k; simpl; congruence.
Qed.

Lemma normal_fields_from_spec : forall ctx l idx fds g,
  In g (normal_fields_from ctx l idx fds) -> Kind g = Normal /\ 0 <= Offset g.
Proof.
  intros ctx l idx fds; revert idx; induction fds as [|fd fds IH]; intros idx g Hg;
    simpl in Hg; [contradiction|].
  destruct Hg as [<-|Hg]; [|eapply IH; eassumption].
  simpl; split; [reflexivity|].
  unfold toCharUnitsFromBits. apply Z.quot_pos; lia.
Qed.

Lemma nonvirtual_base_fields_kind : forall cx l g,
  In g (nonvirtual_base_fields cx l) -> Kind g = NonVirtualBase.
Proof.
  intros cx l g Hg; unfold nonvirtual_base_fields in Hg.
  apply in_flat_map in Hg as (b & _ & Hg).
  destruct (bs_virtual b); simpl in Hg; [contradiction|].
  destruct Hg as [<-|[]]; reflexivity.
Qed.

Lemma vbptr_fields_kind : forall l g,
  In g (vbptr_fields l) -> Kind g = VirtualBaseTablePtr.
Proof.
  intros l g Hg; unfold vbptr_fields in Hg.
  destruct (rl_has_own_vbptr l); simpl in Hg; [|contradiction].
  destruct Hg as [<-|[]]; reflexivity.
Qed.

Lemma virtual_base_fields_kind : forall cx l g,
  In g (virtual_base_fields cx l) -> Kind g = VTorDisp \/ Kind g = VirtualBase.
Proof.
  intros cx l g Hg; unfold virtual_base_fields in Hg.
  apply in_flat_map in Hg as (b & _ & Hg).
  apply in_app_or in Hg as [Hg|Hg].
  - destruct (rl_has_vtordisp l (bs_record b)); simpl in Hg; [|contradiction].
    destruct Hg as [<-|[]]; left; reflexivity.
  - destruct Hg as [<-|[]]; right; reflexivity.
Qed.

Lemma vptr_fields_count : forall ctx cx l,
  (count_kind VTablePtr (vptr_fields ctx cx l) <= 1)%nat.
Proof.
  intros ctx cx l; unfold vptr_fields.
  destruct (_ && _); [|destruct (rl_has_own_vfptr l)]; cbv; lia.
Qed.

Lemma insertions_vptr_count : forall ctx r,
  (count_kind VTablePtr (layout_insertions ctx r) <= 1)%nat.
Proof.
  intros ctx r; unfold layout_insertions.
  assert (Hn : count_kind VTablePtr (normal_fields_from ctx (rd_layout r) 0 (rd_fields r)) = 0%nat).
  { apply count_kind_none; intros g Hg.
    apply normal_fields_from_spec in Hg as [-> _]; discriminate. }
  destruct (rd_cxx r) as [cx|]; rewrite !count_kind_app, Hn.
  - rewrite (count_kind_none _ (nonvirtual_base_fields cx _)),
            (count_kind_none _ (vbptr_fields _)),
            (count_kind_none _ (virtual_base_fields cx _)).
    + pose proof (vptr_fields_count ctx cx (rd_layout r)); lia.
    + intros g Hg; apply virtual_base_fields_kind in Hg as [->| ->]; discriminate.
    + intros g Hg; apply vbptr_fields_kind in Hg as ->; discriminate.
    + intros g Hg; apply nonvirtual_base_fields_kind in Hg as ->; discriminate.
  - cbn; lia.
Qed.

(** Inserting a slot at a non-negative offset behind a slot at offset 0
    leaves that slot in front. *)
Lemma insert_all_behind_head : forall v ins acc,
  Offset v = 0 ->
  (forall g, In g ins -> 0 <= Offset g) ->
  insert_all (v :: acc) ins = v :: insert_all acc ins.
Proof.
  intros v ins; induction ins as [|f ins IH]; intros acc Hv Hins; simpl; [reflexivity|].
  assert (Hf : (Offset v <=? Offset f) = true).
  { apply Z.leb_le; rewrite Hv; apply Hins; left; reflexivity. }
  rewrite Hf. apply IH; [assumption|].
  intros g Hg; apply Hins; right; assumption.
Qed.

Lemma insert_all_in : forall g ins acc,
  In g (insert_all acc ins) -> In g acc \/ In g ins.
Proof.
  intros g ins; induction ins as [|f ins IH]; intros acc Hg; simpl in *; [now left|].
  apply IH in Hg as [Hg|Hg]; [|now right; right].
  apply SlotOrder.insert_field_in in Hg as [->|Hg]; [now right; left|now left].
Qed.

End VPtr.

(** ** Claims on pathogen_GetRecordLayout *)

(** C1: in every layout returned by [pathogen_GetRecordLayout] the slot list
    is non-decreasing in [Offset]; for each offset, the slots at that offset
    appear in the order they were added; and [AddField] places a new slot
    right before the first existing slot whose offset is strictly greater. *)
Theorem GetRecordLayout_slots_ordered : forall ctx cursor r layout,
  cursor_record cursor = Some r ->
  pathogen_GetRecordLayout ctx cursor = Some layout ->
  Sorted offset_le (FirstField layout) /\
  (forall o, slots_at o (FirstField layout) =
             slots_at o (layout_insertions ctx r)) /\
  (forall f fs, exists pre post,
     fs = pre ++ post /\
     Forall (fun g => Offset g <= Offset f) pre /\
     match post with [] => True | g :: _ => Offset f < Offset g end /\
     FirstField (AddField {| FirstField := fs; FirstVTable := []; Size := 0;
                             Alignment := 0; IsCppRecord := false;
                             NonVirtualSize := 0; NonVirtualAlignment := 0 |} f)
       = pre ++ f :: post).
Proof.
  intros ctx cursor r layout Hr Hl.
  unfold pathogen_GetRecordLayout in Hl; rewrite Hr in Hl.
  destruct cursor as [d| |]; simpl in Hr; try discriminate.
  simpl in Hl; destruct (rd_has_definition r); simpl in Hl; [|discriminate].
  injection Hl as <-.
  rewrite SlotOrder.build_layout_fields.
  assert (H0 : StronglySorted offset_le []) by constructor.
  split; [|split].
  - apply StronglySorted_Sorted, SlotOrder.insert_all_sorted, H0.
  - intros o. rewrite SlotOrder.insert_all_slots_at by exact H0. reflexivity.
  - intros f fs. apply SlotOrder.insert_field_split.
Qed.

Lemma GetRecordLayout_slots_ordered_witness :
  Sorted offset_le (FirstField (build_layout (sample_ctx false) sample_record)).
Proof.
  apply (proj1 (GetRecordLayout_slots_ordered (sample_ctx false) sample_cursor
                  sample_record _ eq_refl eq_refl)).
Defined.

(** C2: for a dynamic C++ class without inheritance, the layout starts with
    one [VTablePtr] slot at offset 0, named [vftable_pointer] under the
    Microsoft ABI and [vtable_pointer] otherwise, and no other slot is a
    [VTablePtr]; moreover no layout of any record ever holds more than one
    [VTablePtr] slot, so the two styles are never mixed. *)
Theorem GetRecordLayout_dynamic_no_inheritance_vptr : forall ctx cursor r cx layout,
  cursor_record cursor = Some r ->
  rd_cxx r = Some cx ->
  cx_is_dynamic cx = true ->
  no_inheritance cx (rd_layout r) (ctx_is_microsoft ctx) ->
  pathogen_GetRecordLayout ctx cursor = Some layout ->
  (exists v rest,
     FirstField layout = v :: rest /\ Kind v = VTablePtr /\ Offset v = 0 /\
     Name v = (if ctx_is_microsoft ctx then "vftable_pointer" else "vtable_pointer") /\
     Forall (fun g => Kind g <> VTablePtr) rest) /\
  (forall cursor' layout',
     pathogen_GetRecordLayout ctx cursor' = Some layout' ->
     (count_kind VTablePtr (FirstField layout') <= 1)%nat).
Proof.
  intros ctx cursor r cx layout Hr Hcx Hdyn (Hb & Hvb & Hpb & Hvbp & Hms) Hl.
  split.
  - unfold pathogen_GetRecordLayout in Hl; rewrite Hr in Hl.
    destruct cursor as [d| |]; simpl in Hr; try discriminate.
    simpl in Hl; destruct (rd_has_definition r); simpl in Hl; [|discriminate].
    injection Hl as <-.
    rewrite SlotOrder.build_layout_fields.
    set (v := new_field VTablePtr 0
                (if ctx_is_microsoft ctx then "vftable_pointer" else "vtable_pointer")
                TVoidPtrPtr).
    assert (Hv : vptr_fields ctx cx (rd_layout r) = [v]).
    { unfold vptr_fields, IsMsLayout, v. rewrite Hdyn, Hpb.
      destruct (ctx_is_microsoft ctx); simpl; [rewrite (Hms eq_refl Hdyn)|]; reflexivity. }
    unfold layout_insertions. rewrite Hcx, Hv.
    unfold nonvirtual_base_fields, virtual_base_fields, vbptr_fields.
    rewrite Hb, Hvb, Hvbp. simpl. rewrite app_nil_r.
    rewrite VPtr.insert_all_behind_head; [| reflexivity |].
    + eexists _, _; split; [reflexivity|].
      repeat split; try reflexivity.
      apply Forall_forall; intros g Hg.
      apply VPtr.insert_all_in in Hg as [[]|Hg].
      apply VPtr.normal_fields_from_spec in Hg as [-> _]; discriminate.
    + intros g Hg; apply VPtr.normal_fields_from_spec in Hg as [_ ?]; assumption.
  - intros cursor' layout' Hl'.
    unfold pathogen_GetRecordLayout in Hl'.
    destruct (clang_isDeclaration cursor'); simpl in Hl'; [|discriminate].
    destruct (cursor_record cursor') as [r'|]; [|discriminate].
    destruct (rd_has_definition r'); simpl in Hl'; [|discriminate].
    injection Hl' as <-.
    rewrite SlotOrder.build_layout_fields, VPtr.count_kind_insert_all.
    pose proof (VPtr.insertions_vptr_count ctx r'). unfold count_kind at 1; simpl; lia.
Qed.

Lemma GetRecordLayout_dynamic_no_inheritance_vptr_witness :
  exists v rest,
    FirstField (build_layout (sample_ctx true) sample_record) = v :: rest /\
    Kind v = VTablePtr /\ Offset v = 0 /\ Name v = "vftable_pointer" /\
    Forall (fun g => Kind g <> VTablePtr) rest.
Proof.
  apply (proj1 (GetRecordLayout_dynamic_no_inheritance_vptr (sample_ctx true)
                  sample_cursor sample_record sample_cxx _ eq_refl eq_refl eq_refl
                  (conj eq_refl (conj eq_refl (conj eq_refl (conj eq_refl
                     (fun _ _ => eq_refl))))) eq_refl)).
Defined.

(** C3 (as amended): [pathogen_GetRecordLayout] returns null exactly when
    the cursor is not a declaration, the declaration is not a record, or the
    record has no definition. A defined record that clang can lay out and
    that has no dependent base yields the completely built layout; a defined
    record on which [getASTRecordLayout] aborts, or which has a dependent
    base, yields neither: the call stops on a failed assertion. *)
Theorem GetRecordLayout_null_or_complete_run : forall ctx aborts dep cursor,
  (GetRecordLayout_run ctx aborts dep cursor = Completes None <->
     clang_isDeclaration cursor = false \/ cursor_record cursor = None \/
     exists r, cursor_record cursor = Some r /\ rd_has_definition r = false) /\
  (forall r, cursor_record cursor = Some r -> rd_has_definition r = true ->
     aborts r = false ->
     (forall cx b, rd_cxx r = Some cx -> In b (cx_bases cx) -> dep (bs_type b) = false) ->
     GetRecordLayout_run ctx aborts dep cursor = Completes (Some (build_layout ctx r))) /\
  (forall r, cursor_record cursor = Some r -> rd_has_definition r = true ->
     (aborts r = true \/
      exists cx b, rd_cxx r = Some cx /\ In b (cx_bases cx) /\ dep (bs_type b) = true) ->
     exists msg, GetRecordLayout_run ctx aborts dep cursor = AssertionFails msg).
Proof.
  intros ctx aborts dep cursor.
  assert (Hdecl : forall r, cursor_record cursor = Some r -> clang_isDeclaration cursor = true)
    by (intros r Hr; destruct cursor as [d| |]; simpl in *; congruence).
  unfold GetRecordLayout_run; split; [|split].
  - destruct (clang_isDeclaration cursor) eqn:Hd; simpl.
    + destruct (cursor_record cursor) as [r|] eqn:Hr.
      * destruct (rd_has_definition r) eqn:Hdef; simpl.
        -- split.
           ++ destruct (aborts r), (has_dependent_base dep r); discriminate.
           ++ intros [H|[H|(r' & H & H')]]; try discriminate.
              injection H as <-; congruence.
        -- split; [intros _; right; right; eauto|reflexivity].
      * split; [intros _; right; left; reflexivity|reflexivity].
    + split; [intros _; left; reflexivity|reflexivity].
  - intros r Hr Hdef Hab Hdep.
    rewrite (Hdecl r Hr), Hr, Hdef, Hab; simpl.
    assert (Hb : has_dependent_base dep r = false).
    { unfold has_dependent_base. destruct (rd_cxx r) as [cx|] eqn:Hcx; [|reflexivity].
      destruct (existsb _ _) eqn:E; [|reflexivity].
      apply existsb_exists in E as (b & Hin & Hb).
      rewrite (Hdep cx b eq_refl Hin) in Hb; discriminate. }
    rewrite Hb; reflexivity.
  - intros r Hr Hdef Hbad.
    rewrite (Hdecl r Hr), Hr, Hdef; simpl.
    destruct (aborts r); [eauto|].
    destruct Hbad as [Hbad|(cx & b & Hcx & Hin & Hb)]; [discriminate|].
    assert (Hb' : has_dependent_base dep r = true).
    { unfold has_dependent_base; rewrite Hcx. apply existsb_exists; eauto. }
    rewrite Hb'; eauto.
Qed.

Lemma GetRecordLayout_null_or_complete_run_witness :
  GetRecordLayout_run (sample_ctx false) (fun _ => false) sample_is_dependent_type
    sample_cursor = Completes (Some (build_layout (sample_ctx false) sample_record)).
Proof.
  apply (proj1 (proj2 (GetRecordLayout_null_or_complete_run (sample_ctx false)
           (fun _ => false) sample_is_dependent_type sample_cursor)) sample_record
           eq_refl eq_refl eq_refl).
  intros cx b Hcx Hin. injection Hcx as <-. destruct Hin.
Defined.

(** C3, counterexample: the pattern of [template <class T> struct D : T {};]
    is a defined record reached from a declaration cursor, yet the call
    returns no layout at all: whatever [getASTRecordLayout] does on it, the
    dependent base stops the program at the assertion of the base loop. *)
Lemma GetRecordLayout_dependent_base_aborts :
  clang_isDeclaration sample_dependent_cursor = true /\
  cursor_record sample_dependent_cursor = Some sample_dependent_record /\
  rd_has_definition sample_dependent_record = true /\
  (forall ctx aborts res,
     GetRecordLayout_run ctx aborts sample_is_dependent_type sample_dependent_cursor
       <> Completes res).
Proof.
  split; [reflexivity|split; [reflexivity|split; [reflexivity|]]].
  intros ctx aborts res. unfold GetRecordLayout_run; simpl.
  destruct (aborts sample_dependent_record); discriminate.
Qed.

(** ** Claim on pathogen_getArgPassingRestrictions *)

(** C4: on a declaration cursor whose declaration is a function,
    [pathogen_getArgPassingRestrictions] dereferences the null result of
    [dyn_cast_or_null<RecordDecl>] instead of returning [Invalid], whereas
    [pathogen_GetRecordLayout] on the same cursor checks for null and
    returns no layout. *)
Theorem getArgPassingRestrictions_non_record_decl :
  pathogen_getArgPassingRestrictions (CursorDecl (Some DFunction)) = NullDereference /\
  pathogen_GetRecordLayout (sample_ctx false) (CursorDecl (Some DFunction)) = None.
Proof. split; reflexivity. Qed.

(** ** Claim on pathogen_GetTypeSizes *)

(** C9: when the caller's [PathogenTypeSizes] field differs from the size
    of the struct, [pathogen_GetTypeSizes] returns false and leaves every
    field as it was; when it matches, it returns true and every field holds
    the size of its struct. *)
Theorem GetTypeSizes_fail_closed : forall sizeof sizes,
  (sz_PathogenTypeSizes sizes <> sz_PathogenTypeSizes sizeof ->
     pathogen_GetTypeSizes sizeof sizes = (false, sizes)) /\
  (sz_PathogenTypeSizes sizes = sz_PathogenTypeSizes sizeof ->
     pathogen_GetTypeSizes sizeof sizes = (true, sizeof)).
Proof.
  intros sizeof sizes; unfold pathogen_GetTypeSizes; split; intros H.
  - apply Z.eqb_neq in H; rewrite H; reflexivity.
  - rewrite H, Z.eqb_refl; simpl. destruct sizeof; reflexivity.
Qed.

Lemma GetTypeSizes_fail_closed_witness :
  pathogen_GetTypeSizes sample_sizeof (sample_sizes_request 48)
    = (false, sample_sizes_request 48) /\
  pathogen_GetTypeSizes sample_sizeof (sample_sizes_request 52) = (true, sample_sizeof).
Proof.
  split.
  - apply (proj1 (GetTypeSizes_fail_closed sample_sizeof (sample_sizes_request 48))).
    discriminate.
  - apply (proj2 (GetTypeSizes_fail_closed sample_sizeof (sample_sizes_request 52))).
    reflexivity.
Defined.

(** ** Constant folding *)

Module ConstantFacts.
Import ConstantValue.

Lemma testbit_top : forall w x,
  0 < w -> 0 <= x < 2 ^ w -> Z.testbit x (w - 1) = (2 ^ (w - 1) <=? x).
Proof.
  intros w x Hw Hx.
  assert (Hp : 2 ^ w = 2 ^ (w - 1) * 2).
  { replace w with (Z.succ (w - 1)) at 1 by lia. rewrite Z.pow_succ_r by lia. lia. }
  assert (Hpos : 0 < 2 ^ (w - 1)) by (apply Z.pow_pos_nonneg; lia).
  pose proof (Z.testbit_spec' x (w - 1) ltac:(lia)) as Hb.
  destruct (2 ^ (w - 1) <=? x) eqn:E.
  - apply Z.leb_le in E.
    assert (Hd : x / 2 ^ (w - 1) = 1).
    { replace x with (1 * 2 ^ (w - 1) + (x - 2 ^ (w - 1))) by lia.
      rewrite Z.div_add_l by lia.
      rewrite (Z.div_small (x - 2 ^ (w - 1))) by lia. reflexivity. }
    rewrite Hd in Hb.
    destruct (Z.testbit x (w - 1)); [reflexivity|discriminate].
  - apply Z.leb_gt in E.
    rewrite Z.div_small in Hb by lia.
    destruct (Z.testbit x (w - 1)); [discriminate|reflexivity].
Qed.

Lemma to_uint64_to_int64 : forall z, to_uint64 (to_int64 z) = to_uint64 z.
Proof.
  intros z; unfold to_uint64, to_int64.
  destruct (z mod 2 ^ 64 <? 2 ^ 63).
  - apply Z.mod_mod; lia.
  - replace (z mod 2 ^ 64 - 2 ^ 64) with (z mod 2 ^ 64 + (-1) * 2 ^ 64) by lia.
    rewrite Z.mod_add by lia. apply Z.mod_mod; lia.
Qed.

Lemma ext_value_spec : forall a,
  0 < ai_width a <= 64 -> 0 <= ai_bits a < 2 ^ ai_width a ->
  to_uint64 (getExtValue a) =
  (if ai_signed a then sign_extend_64 (ai_width a) (ai_bits a) else ai_bits a).
Proof.
  intros [w sg x] Hw Hx; simpl in *.
  unfold getExtValue, apsint_value; simpl.
  rewrite to_uint64_to_int64; unfold to_uint64.
  assert (H64 : 2 ^ w <= 2 ^ 64) by (apply Z.pow_le_mono_r; lia).
  destruct sg; simpl.
  - unfold sign_extend_64. rewrite testbit_top by lia.
    destruct (2 ^ (w - 1) <=? x).
    + replace (x - 2 ^ w) with ((x + (2 ^ 64 - 2 ^ w)) + (-1) * 2 ^ 64) by lia.
      rewrite Z.mod_add by lia. apply Z.mod_small; lia.
    + apply Z.mod_small; lia.
  - apply Z.mod_small; lia.
Qed.

Lemma compute_folds : forall evaluate cursor st e,
  folds cursor e ->
  pathogen_ComputeConstantValue evaluate cursor st = evaluate_expression evaluate e st.
Proof. intros evaluate cursor st e [-> | ->]; reflexivity. Qed.

Lemma compute_success : forall evaluate cursor st e,
  folds cursor e -> er_success (evaluate e) = true ->
  pathogen_ComputeConstantValue evaluate cursor st =
  (true, {| info := fst (fill_info (evaluate e) (heap st)); error := error st;
            heap := snd (fill_info (evaluate e) (heap st)) |}).
Proof.
  intros evaluate cursor st e Hc Hs.
  rewrite (compute_folds _ _ _ _ Hc). unfold evaluate_expression.
  rewrite Hs; simpl. destruct (fill_info (evaluate e) (heap st)); reflexivity.
Qed.

End ConstantFacts.

(** C6: folding an integer gives the kind of its own signedness, its bit
    width as [SubKind], and its 64-bit sign or zero extension as [Value];
    in particular [-1 : int32] folds to (SignedInteger, 32,
    0xFFFFFFFFFFFFFFFF) and [200 : uint8] to (UnsignedInteger, 8, 200). *)
Theorem ComputeConstantValue_integer :
  (forall evaluate cursor st e a,
     folds cursor e ->
     ConstantValue.er_success (evaluate e) = true ->
     ConstantValue.er_val (evaluate e) = ConstantValue.AVInt a ->
     0 < ConstantValue.ai_width a <= 64 ->
     0 <= ConstantValue.ai_bits a < 2 ^ ConstantValue.ai_width a ->
     exists st',
       ConstantValue.pathogen_ComputeConstantValue evaluate cursor st = (true, st') /\
       ConstantValue.Kind (ConstantValue.info st') =
         (if ConstantValue.ai_signed a then ConstantValue.SignedInteger
          else ConstantValue.UnsignedInteger) /\
       ConstantValue.SubKind (ConstantValue.info st') = ConstantValue.ai_width a /\
       ConstantValue.Value (ConstantValue.info st') =
         (if ConstantValue.ai_signed a
          then ConstantValue.sign_extend_64 (ConstantValue.ai_width a) (ConstantValue.ai_bits a)
          else ConstantValue.ai_bits a)) /\
  (forall st e,
     exists st',
       ConstantValue.pathogen_ComputeConstantValue (fun _ => int_result minus_one_i32)
         (CursorExpr e) st = (true, st') /\
       ConstantValue.Kind (ConstantValue.info st') = ConstantValue.SignedInteger /\
       ConstantValue.SubKind (ConstantValue.info st') = 32 /\
       ConstantValue.Value (ConstantValue.info st') = 18446744073709551615) /\
  (forall st e,
     exists st',
       ConstantValue.pathogen_ComputeConstantValue (fun _ => int_result two_hundred_u8)
         (CursorExpr e) st = (true, st') /\
       ConstantValue.Kind (ConstantValue.info st') = ConstantValue.UnsignedInteger /\
       ConstantValue.SubKind (ConstantValue.info st') = 8 /\
       ConstantValue.Value (ConstantValue.info st') = 200).
Proof.
  split; [|split].
  - intros evaluate cursor st e a Hc Hs Hv Hw Hx.
    rewrite (ConstantFacts.compute_success _ _ _ _ Hc Hs).
    eexists; split; [reflexivity|]. simpl.
    unfold ConstantValue.fill_info; rewrite Hv; simpl.
    repeat split. apply ConstantFacts.ext_value_spec; assumption.
  - intros st e; eexists; split; [reflexivity|]. repeat split; vm_compute; reflexivity.
  - intros st e; eexists; split; [reflexivity|]. repeat split; vm_compute; reflexivity.
Qed.

Lemma ComputeConstantValue_integer_witness :
  exists st',
    ConstantValue.pathogen_ComputeConstantValue (fun _ => int_result minus_one_i32)
      (CursorExpr 0) sample_state = (true, st') /\
    ConstantValue.Kind (ConstantValue.info st') = ConstantValue.SignedInteger /\
    ConstantValue.SubKind (ConstantValue.info st') = 32 /\
    ConstantValue.Value (ConstantValue.info st') =
      ConstantValue.sign_extend_64 32 (2 ^ 32 - 1).
Proof.
  apply (proj1 ComputeConstantValue_integer (fun _ => int_result minus_one_i32)
           (CursorExpr 0) sample_state 0%nat minus_one_i32
           (or_introl eq_refl) eq_refl eq_refl); vm_compute; split; congruence.
Defined.

(** C7: a folded string literal yields the [String] kind; when its encoding
    is the wide-character one, [SubKind] is UTF-8, UTF-16 or UTF-32 for a
    character width of 1, 2 or 4 bytes, combined with [WideCharBit]; and the
    raw [WideChar] tag is never the resulting [SubKind]. *)
Theorem ComputeConstantValue_wide_string : forall evaluate cursor st e sl,
  folds cursor e ->
  ConstantValue.er_success (evaluate e) = true ->
  ConstantValue.er_val (evaluate e) =
    ConstantValue.AVLValue (ConstantValue.LBStringLiteral sl) ->
  In (ConstantValue.sl_char_byte_width sl) [1; 2; 4] ->
  exists st',
    ConstantValue.pathogen_ComputeConstantValue evaluate cursor st = (true, st') /\
    ConstantValue.Kind (ConstantValue.info st') = ConstantValue.String /\
    ConstantValue.SubKind (ConstantValue.info st') <> ConstantValue.WideChar /\
    (ConstantValue.sl_kind sl = ConstantValue.WideChar ->
       (ConstantValue.sl_char_byte_width sl = 1 ->
          ConstantValue.SubKind (ConstantValue.info st') =
            Z.lor ConstantValue.Utf8 ConstantValue.WideCharBit) /\
       (ConstantValue.sl_char_byte_width sl = 2 ->
          ConstantValue.SubKind (ConstantValue.info st') =
            Z.lor ConstantValue.Utf16 ConstantValue.WideCharBit) /\
       (ConstantValue.sl_char_byte_width sl = 4 ->
          ConstantValue.SubKind (ConstantValue.info st') =
            Z.lor ConstantValue.Utf32 ConstantValue.WideCharBit)).
Proof.
  intros evaluate cursor st e sl Hc Hs Hv Hwidth.
  rewrite (ConstantFacts.compute_success _ _ _ _ Hc Hs).
  eexists; split; [reflexivity|]. simpl.
  unfold ConstantValue.fill_info; rewrite Hv; simpl.
  unfold ConstantValue.string_subkind.
  split; [reflexivity|].
  destruct (ConstantValue.sl_kind sl =? ConstantValue.WideChar) eqn:Hk.
  - apply Z.eqb_eq in Hk.
    destruct Hwidth as [Hw|[Hw|[Hw|[]]]]; rewrite <- Hw; simpl;
      (split; [intros Habs; vm_compute in Habs; discriminate|]);
      intros _; repeat split; intros Hw'; discriminate Hw' || reflexivity.
  - apply Z.eqb_neq in Hk. split; [assumption|]. intros Hw'; contradiction.
Qed.

Lemma ComputeConstantValue_wide_string_witness :
  exists st',
    ConstantValue.pathogen_ComputeConstantValue (fun _ => string_result wide_literal)
      (CursorExpr 0) sample_state = (true, st') /\
    ConstantValue.Kind (ConstantValue.info st') = ConstantValue.String /\
    ConstantValue.SubKind (ConstantValue.info st') <> ConstantValue.WideChar.
Proof.
  destruct (ComputeConstantValue_wide_string (fun _ => string_result wide_literal)
              (CursorExpr 0) sample_state 0%nat wide_literal
              (or_introl eq_refl) eq_refl eq_refl
              ltac:(simpl; auto)) as (st' & H1 & H2 & H3 & _).
  exists st'; split; [exact H1|split; assumption].
Defined.

(** C8: a cursor that is neither a variable declaration nor an expression
    fails with the descriptive message; a variable without initializer
    fails with [*error] untouched; a failed fold writes [*error] only when
    the fold produced diagnostics (and otherwise leaves the state alone);
    a successful call never writes [*error]. *)
Theorem ComputeConstantValue_error_contract : forall evaluate cursor st,
  (clang_isExpression cursor = false ->
   (forall init, cursor <> CursorDecl (Some (DVar init))) ->
   ConstantValue.pathogen_ComputeConstantValue evaluate cursor st =
     (false, ConstantValue.set_error st ConstantValue.not_var_or_expr_message)) /\
  (cursor = CursorDecl (Some (DVar NoInit)) ->
   ConstantValue.pathogen_ComputeConstantValue evaluate cursor st = (false, st)) /\
  (forall e, folds cursor e ->
   ConstantValue.er_success (evaluate e) = false ->
   ConstantValue.pathogen_ComputeConstantValue evaluate cursor st = (false, st) \/
   (ConstantValue.pathogen_ComputeConstantValue evaluate cursor st =
      (false, ConstantValue.set_error st ConstantValue.diagnostics_message) /\
    exists n, ConstantValue.er_diag (evaluate e) = Some n /\ (0 < n)%nat)) /\
  (forall st', ConstantValue.pathogen_ComputeConstantValue evaluate cursor st = (true, st') ->
   ConstantValue.error st' = ConstantValue.error st).
Proof.
  intros evaluate cursor st; split; [|split; [|split]].
  - intros Hexpr Hvar.
    destruct cursor as [[d|]| e |]; simpl in Hexpr; try discriminate; try reflexivity.
    destruct d; try reflexivity. exfalso; eapply Hvar; reflexivity.
  - intros ->; reflexivity.
  - intros e Hc Hs. rewrite (ConstantFacts.compute_folds _ _ _ _ Hc).
    unfold ConstantValue.evaluate_expression. rewrite Hs; simpl.
    destruct (ConstantValue.er_diag (evaluate e)) as [n|] eqn:Hd; [|left; reflexivity].
    destruct (0 <? n)%nat eqn:Hn; [right|left; reflexivity].
    split; [reflexivity|]. exists n; split; [reflexivity|]. apply Nat.ltb_lt; assumption.
  - intros st' H.
    assert (Heval : forall e, ConstantValue.evaluate_expression evaluate e st = (true, st') ->
                    ConstantValue.error st' = ConstantValue.error st).
    { intros e He. unfold ConstantValue.evaluate_expression in He.
      destruct (ConstantValue.er_success (evaluate e)); simpl in He.
      - destruct (ConstantValue.fill_info (evaluate e) (ConstantValue.heap st)).
        injection He as <-; reflexivity.
      - destruct (ConstantValue.er_diag (evaluate e)) as [n|];
          [destruct (0 <? n)%nat|]; discriminate. }
    destruct cursor as [[[| [|e] | |]|]| e |]; simpl in H; try discriminate;
      eapply Heval; eassumption.
Qed.

Lemma ComputeConstantValue_error_contract_witness :
  ConstantValue.pathogen_ComputeConstantValue (fun _ => failing_result None)
    CursorOther sample_state =
    (false, ConstantValue.set_error sample_state ConstantValue.not_var_or_expr_message) /\
  ConstantValue.pathogen_ComputeConstantValue (fun _ => failing_result None)
    (CursorDecl (Some (DVar NoInit))) sample_state = (false, sample_state).
Proof.
  destruct (ComputeConstantValue_error_contract (fun _ => failing_result None)
              CursorOther sample_state) as [H1 _].
  destruct (ComputeConstantValue_error_contract (fun _ => failing_result None)
              (CursorDecl (Some (DVar NoInit))) sample_state) as [_ [H2 _]].
  split; [apply H1; [reflexivity|discriminate]|apply H2; reflexivity].
Defined.

(** C10: [pathogen_DeletePathogenConstantValueInfo] does nothing on a null
    pointer or on an info that is not a string or whose [Value] is 0; on a
    string info with an allocated payload it frees exactly that payload and
    sets [Value] to 0; and calling it again on the result frees nothing. *)
Theorem DeleteConstantValueInfo_safe : forall h,
  ConstantValue.pathogen_DeletePathogenConstantValueInfo None h = Returns (None, h) /\
  (forall i, ConstantValue.Kind i <> ConstantValue.String \/ ConstantValue.Value i = 0 ->
     ConstantValue.pathogen_DeletePathogenConstantValueInfo (Some i) h = Returns (Some i, h)) /\
  (forall i, ConstantValue.Kind i = ConstantValue.String -> ConstantValue.Value i <> 0 ->
     ConstantValue.allocated h (ConstantValue.Value i) = true ->
     ConstantValue.pathogen_DeletePathogenConstantValueInfo (Some i) h =
       Returns (Some {| ConstantValue.HasSideEffects := ConstantValue.HasSideEffects i;
                        ConstantValue.HasUndefinedBehavior := ConstantValue.HasUndefinedBehavior i;
                        ConstantValue.Kind := ConstantValue.Kind i;
                        ConstantValue.SubKind := ConstantValue.SubKind i;
                        ConstantValue.Value := 0 |},
                {| ConstantValue.next_addr := ConstantValue.next_addr h;
                   ConstantValue.blocks :=
                     filter (fun b => negb (fst b =? ConstantValue.Value i))
                       (ConstantValue.blocks h) |})) /\
  (forall i i' h',
     ConstantValue.pathogen_DeletePathogenConstantValueInfo (Some i) h = Returns (Some i', h') ->
     ConstantValue.pathogen_DeletePathogenConstantValueInfo (Some i') h' = Returns (Some i', h')).
Proof.
  intros h; split; [reflexivity|split; [|split]].
  - intros i [Hk|Hv]; simpl.
    + apply Z.eqb_neq in Hk; rewrite Hk; reflexivity.
    + rewrite Hv, andb_false_r; reflexivity.
  - intros i Hk Hv Ha; simpl.
    rewrite Hk, Z.eqb_refl. apply Z.eqb_neq in Hv; rewrite Hv; simpl.
    unfold ConstantValue.free; rewrite Ha; reflexivity.
  - intros i i' h' H; simpl in H |- *.
    destruct ((ConstantValue.Kind i =? ConstantValue.String) &&
              negb (ConstantValue.Value i =? 0)) eqn:E.
    + destruct (ConstantValue.free h (ConstantValue.Value i)); try discriminate.
      injection H as <- <-; simpl. rewrite andb_false_r; reflexivity.
    + injection H as <- <-. rewrite E. reflexivity.
Qed.

Lemma DeleteConstantValueInfo_safe_witness :
  ConstantValue.pathogen_DeletePathogenConstantValueInfo (Some sample_string_info)
    sample_string_heap =
  Returns (Some {| ConstantValue.HasSideEffects := false;
                   ConstantValue.HasUndefinedBehavior := false;
                   ConstantValue.Kind := ConstantValue.String;
                   ConstantValue.SubKind := ConstantValue.Utf8;
                   ConstantValue.Value := 0 |},
           {| ConstantValue.next_addr := 2%positive; ConstantValue.blocks := [] |}).
Proof.
  apply (proj1 (proj2 (proj2 (DeleteConstantValueInfo_safe sample_string_heap)))
           sample_string_info eq_refl ltac:(discriminate) eq_refl).
Defined.

(** * Further properties *)

(** ** Slot bookkeeping of pathogen_GetRecordLayout *)

Module LayoutFacts.

Lemma get_layout_some : forall ctx cursor r layout,
  cursor_record cursor = Some r ->
  pathogen_GetRecordLayout ctx cursor = Some layout ->
  layout = build_layout ctx r /\ rd_has_definition r = true.
Proof.
  intros ctx cursor r layout Hr Hl.
  unfold pathogen_GetRecordLayout in Hl; rewrite Hr in Hl.
  destruct cursor as [d| |]; simpl in Hr; try discriminate.
  simpl in Hl; destruct (rd_has_definition r); simpl in Hl; [|discriminate].
  injection Hl as <-; split; reflexivity.
Qed.

Lemma insert_field_perm : forall f fs, Permutation (insert_field f fs) (f :: fs).
Proof.
  intros f fs; induction fs as [|h t IH]; simpl; [reflexivity|].
  destruct (Offset h <=? Offset f); [|reflexivity].
  rewrite IH. apply perm_swap.
Qed.

Lemma insert_all_perm : forall ins acc, Permutation (insert_all acc ins) (acc ++ ins).
Proof.
  induction ins as [|f ins IH]; intros acc; simpl.
  - rewrite app_nil_r; reflexivity.
  - rewrite IH, insert_field_perm. simpl. apply Permutation_middle.
Qed.

Lemma fold_AddField_vtables : forall ins l,
  FirstVTable (fold_left AddField ins l) = FirstVTable l.
Proof.
  induction ins as [|f ins IH]; intros l; simpl; [reflexivity|].
  rewrite IH; reflexivity.
Qed.

Lemma fold_AddVTableLayout_vtables : forall vts l,
  FirstVTable (fold_left AddVTableLayout vts l) = FirstVTable l ++ map make_vtable vts.
Proof.
  induction vts as [|v vts IH]; intros l; simpl; [now rewrite app_nil_r|].
  rewrite IH; simpl. rewrite <- app_assoc; reflexivity.
Qed.

Lemma make_vtable_small : forall comps,
  Z.of_nat (List.length comps) < 2 ^ 31 ->
  EntryCount (make_vtable comps) = Z.of_nat (List.length comps) /\
  Entries (make_vtable comps) = comps.
Proof.
  intros comps H; unfold make_vtable, to_int32; cbn [EntryCount Entries].
  rewrite Z.mod_small by lia.
  rewrite (proj2 (Z.ltb_lt _ _)) by lia.
  split; [reflexivity|]. rewrite Nat2Z.id; apply firstn_all.
Qed.

Lemma fold_AddVTableLayout_meta : forall vts l,
  IsCppRecord (fold_left AddVTableLayout vts l) = IsCppRecord l /\
  NonVirtualSize (fold_left AddVTableLayout vts l) = NonVirtualSize l /\
  NonVirtualAlignment (fold_left AddVTableLayout vts l) = NonVirtualAlignment l.
Proof.
  induction vts as [|v vts IH]; intros l; simpl; [auto|].
  destruct (IH (AddVTableLayout l v)) as (A & B & C); rewrite A, B, C; auto.
Qed.

Lemma fold_AddField_meta : forall ins l,
  IsCppRecord (fold_left AddField ins l) = IsCppRecord l /\
  NonVirtualSize (fold_left AddField ins l) = NonVirtualSize l /\
  NonVirtualAlignment (fold_left AddField ins l) = NonVirtualAlignment l.
Proof.
  induction ins as [|f ins IH]; intros l; simpl; [auto|].
  destruct (IH (AddField l f)) as (A & B & C); rewrite A, B, C; auto.
Qed.

Lemma count_kind_nil : forall k, count_kind k [] = 0%nat.
Proof. reflexivity. Qed.

Lemma count_kind_vptr : forall k ctx cx l,
  count_kind k (vptr_fields ctx cx l) =
  if PathogenRecordFieldKind_eqb VTablePtr k then
    (if (cx_is_dynamic cx && negb (isSome (rl_primary_base l)) && negb (IsMsLayout ctx))
        || rl_has_own_vfptr l then 1 else 0)%nat
  else 0%nat.
Proof.
  intros k ctx cx l; unfold vptr_fields.
  destruct (_ && _); [|destruct (rl_has_own_vfptr l)]; unfold count_kind; simpl;
    destruct k; reflexivity.
Qed.

Lemma count_kind_nonvirtual : forall k cx l,
  count_kind k (nonvirtual_base_fields cx l) =
  if PathogenRecordFieldKind_eqb NonVirtualBase k then
    List.length (filter (fun b => negb (bs_virtual b)) (cx_bases cx))
  else 0%nat.
Proof.
  intros k cx l; unfold nonvirtual_base_fields.
  induction (cx_bases cx) as [|b bs IH]; cbn [flat_map filter]; [destruct k; reflexivity|].
  rewrite VPtr.count_kind_app, IH.
  destruct (bs_virtual b); simpl; unfold count_kind; simpl; destruct k; simpl; lia.
Qed.

Lemma count_kind_vbptr : forall k l,
  count_kind k (vbptr_fields l) =
  if PathogenRecordFieldKind_eqb VirtualBaseTablePtr k then
    (if rl_has_own_vbptr l then 1 else 0)%nat
  else 0%nat.
Proof.
  intros k l; unfold vbptr_fields.
  destruct (rl_has_own_vbptr l); unfold count_kind; simpl; destruct k; reflexivity.
Qed.

Lemma count_kind_normal : forall k ctx l idx fds,
  count_kind k (normal_fields_from ctx l idx fds) =
  if PathogenRecordFieldKind_eqb Normal k then List.length fds else 0%nat.
Proof.
  intros k ctx l idx fds; revert idx; induction fds as [|fd fds IH]; intros idx; simpl.
  - destruct k; reflexivity.
  - replace (normal_field ctx l idx fd :: normal_fields_from ctx l (S idx) fds)
      with ([normal_field ctx l idx fd] ++ normal_fields_from ctx l (S idx) fds)
      by reflexivity.
    rewrite VPtr.count_kind_app, IH. unfold count_kind; simpl; destruct k; simpl; lia.
Qed.

Lemma count_kind_virtual : forall k cx l,
  count_kind k (virtual_base_fields cx l) =
  ((if PathogenRecordFieldKind_eqb VirtualBase k then List.length (cx_vbases cx) else 0) +
   (if PathogenRecordFieldKind_eqb VTorDisp k then
      List.length (filter (fun b => rl_has_vtordisp l (bs_record b)) (cx_vbases cx))
    else 0))%nat.
Proof.
  intros k cx l; unfold virtual_base_fields.
  induction (cx_vbases cx) as [|b bs IH]; cbn [flat_map filter List.length];
    [destruct k; reflexivity|].
  rewrite VPtr.count_kind_app, IH, VPtr.count_kind_app.
  destruct (rl_has_vtordisp l (bs_record b)); unfold count_kind; simpl;
    destruct k; simpl; lia.
Qed.

Lemma vptr_fields_kind : forall ctx cx l g,
  In g (vptr_fields ctx cx l) -> Kind g = VTablePtr.
Proof.
  intros ctx cx l g Hg; unfold vptr_fields in Hg.
  destruct (_ && _); [|destruct (rl_has_own_vfptr l)]; simpl in Hg;
    try contradiction; destruct Hg as [<-|[]]; reflexivity.
Qed.

Lemma normal_fields_from_in : forall ctx l idx fds g,
  In g (normal_fields_from ctx l idx fds) ->
  exists i fd, nth_error fds i = Some fd /\ g = normal_field ctx l (idx + i) fd.
Proof.
  intros ctx l idx fds; revert idx; induction fds as [|fd fds IH]; intros idx g Hg;
    simpl in Hg; [contradiction|].
  destruct Hg as [<-|Hg].
  - exists O, fd; split; [reflexivity|]. now rewrite Nat.add_0_r.
  - apply IH in Hg as (i & fd' & Hi & ->).
    exists (S i), fd'; split; [assumption|]. now rewrite Nat.add_succ_r.
Qed.

(** Slots other than normal fields are never bit-fields. *)
Lemma non_normal_plain : forall ctx r g,
  In g (layout_insertions ctx r) -> Kind g <> Normal ->
  IsBitField g = false /\ BitFieldStart g = 0 /\ BitFieldWidth g = 0.
Proof.
  intros ctx r g Hg Hk; unfold layout_insertions in Hg.
  destruct (rd_cxx r) as [cx|].
  - repeat (apply in_app_or in Hg as [Hg|Hg]).
    + unfold vptr_fields in Hg.
      destruct (_ && _); [|destruct (rl_has_own_vfptr _)]; simpl in Hg;
        try contradiction; destruct Hg as [<-|[]]; auto.
    + unfold nonvirtual_base_fields in Hg.
      apply in_flat_map in Hg as (b & _ & Hg).
      destruct (bs_virtual b); simpl in Hg; [contradiction|].
      destruct Hg as [<-|[]]; auto.
    + unfold vbptr_fields in Hg.
      destruct (rl_has_own_vbptr _); simpl in Hg; [|contradiction].
      destruct Hg as [<-|[]]; auto.
    + apply VPtr.normal_fields_from_spec in Hg as [? _]; contradiction.
    + unfold virtual_base_fields in Hg.
      apply in_flat_map in Hg as (b & _ & Hg).
      apply in_app_or in Hg as [Hg|Hg].
      * destruct (rl_has_vtordisp _ _); simpl in Hg; [|contradiction].
        destruct Hg as [<-|[]]; auto.
      * destruct Hg as [<-|[]]; auto.
  - simpl in Hg. apply in_app_or in Hg as [Hg|[]].
    apply VPtr.normal_fields_from_spec in Hg as [? _]; contradiction.
Qed.

Lemma to_int64_small : forall z, - 2 ^ 63 <= z < 2 ^ 63 -> to_int64 z = z.
Proof.
  intros z Hz; unfold to_int64.
  destruct (Z.leb_spec 0 z).
  - rewrite Z.mod_small by lia.
    destruct (Z.ltb_spec z (2 ^ 63)); lia.
  - replace (z mod 2 ^ 64) with (z + 2 ^ 64).
    + destruct (Z.ltb_spec (z + 2 ^ 64) (2 ^ 63)); lia.
    + rewrite <- (Z.mod_add z 1) by lia. rewrite Z.mul_1_l, Z.mod_small by lia.
      reflexivity.
Qed.

Lemma forall_before : forall (R : PathogenRecordField -> PathogenRecordField -> Prop) l1 x l2,
  StronglySorted R (l1 ++ x :: l2) -> Forall (fun y => R y x) l1.
Proof.
  intros R l1; induction l1 as [|a l1 IH]; intros x l2 Hs; simpl in Hs; [constructor|].
  inversion Hs as [|? ? Ht Hall]; subst.
  constructor; [|now apply (IH x l2)].
  rewrite Forall_forall in Hall; apply Hall, in_or_app; right; left; reflexivity.
Qed.

Lemma insert_field_last : forall f acc,
  Forall (fun g => Offset g <= Offset f) acc -> insert_field f acc = acc ++ [f].
Proof.
  intros f acc; induction acc as [|h t IH]; intros Hall; simpl; [reflexivity|].
  inversion Hall as [|? ? Hh Ht]; subst.
  apply Z.leb_le in Hh; rewrite Hh, IH by assumption; reflexivity.
Qed.

Lemma insert_all_in_order : forall ins acc,
  StronglySorted offset_le (acc ++ ins) -> insert_all acc ins = acc ++ ins.
Proof.
  induction ins as [|f ins IH]; intros acc Hs; simpl; [now rewrite app_nil_r|].
  rewrite insert_field_last.
  - rewrite IH; [now rewrite <- app_assoc|]. now rewrite <- app_assoc.
  - apply (forall_before offset_le acc f ins Hs).
Qed.

Lemma quot_mono : forall a b c, 0 <= a <= b -> 0 < c -> Z.quot a c <= Z.quot b c.
Proof.
  intros a b c Hab Hc.
  rewrite !Z.quot_div_nonneg by lia. apply Z.div_le_mono; lia.
Qed.

Lemma normal_fields_sorted : forall ctx l fds idx,
  (forall i, (idx <= i)%nat -> (S i < idx + List.length fds)%nat ->
     (rl_field_offset l i <= rl_field_offset l (S i))%N) ->
  Sorted offset_le (normal_fields_from ctx l idx fds).
Proof.
  intros ctx l fds; induction fds as [|fd fds IH]; intros idx Hm; simpl; [constructor|].
  constructor.
  - apply IH. intros i Hi Hi'. apply Hm; simpl; lia.
  - destruct fds as [|fd' fds]; simpl; constructor.
    unfold offset_le, normal_field, toCharUnitsFromBits; simpl.
    apply quot_mono; [|lia].
    assert (H := Hm idx (le_n idx) ltac:(simpl; lia)). lia.
Qed.

End LayoutFacts.

(** X1: the slots of every layout [pathogen_GetRecordLayout] returns are
    exactly the slots the function adds, each once: no slot is lost or
    duplicated by the ordered insertion. *)
Theorem GetRecordLayout_slots_permutation : forall ctx cursor r layout,
  cursor_record cursor = Some r ->
  pathogen_GetRecordLayout ctx cursor = Some layout ->
  Permutation (FirstField layout) (layout_insertions ctx r).
Proof.
  intros ctx cursor r layout Hr Hl.
  destruct (LayoutFacts.get_layout_some ctx cursor r layout Hr Hl) as [-> _].
  rewrite SlotOrder.build_layout_fields, LayoutFacts.insert_all_perm. reflexivity.
Qed.

Lemma GetRecordLayout_slots_permutation_witness :
  Permutation (FirstField (build_layout (sample_ctx false) sample_record))
              (layout_insertions (sample_ctx false) sample_record).
Proof.
  apply (GetRecordLayout_slots_permutation (sample_ctx false) sample_cursor
           sample_record _ eq_refl eq_refl).
Defined.

(** X2: the v-tables of a layout are the extracted v-table layouts in order,
    each with [EntryCount] equal to its number of components narrowed to
    [int32_t] (so, below [2^31] components, exactly that number, with the
    components as its entries): none for a record that is not a dynamic C++
    class, one under the Itanium ABI, and one per virtual-function-pointer
    offset under the Microsoft ABI. *)
Theorem GetRecordLayout_vtables : forall ctx cursor r layout,
  cursor_record cursor = Some r ->
  pathogen_GetRecordLayout ctx cursor = Some layout ->
  FirstVTable layout = map make_vtable (layout_vtables ctx r) /\
  Forall2 (fun v comps =>
      EntryCount v = to_int32 (Z.of_nat (List.length comps)) /\
      (Z.of_nat (List.length comps) < 2 ^ 31 ->
         EntryCount v = Z.of_nat (List.length comps) /\ Entries v = comps))
    (FirstVTable layout) (layout_vtables ctx r) /\
  List.length (FirstVTable layout) =
    match rd_cxx r with
    | Some cx =>
        if cx_is_dynamic cx then
          if ctx_is_microsoft ctx then List.length (cx_ms_vftables cx) else 1%nat
        else 0%nat
    | None => 0%nat
    end.
Proof.
  intros ctx cursor r layout Hr Hl.
  destruct (LayoutFacts.get_layout_some ctx cursor r layout Hr Hl) as [-> _].
  unfold build_layout.
  rewrite LayoutFacts.fold_AddVTableLayout_vtables, LayoutFacts.fold_AddField_vtables.
  simpl. split; [reflexivity|split].
  - induction (layout_vtables ctx r) as [|comps vts IH]; simpl; constructor; [|exact IH].
    split; [reflexivity|apply LayoutFacts.make_vtable_small].
  - rewrite length_map; unfold layout_vtables.
    destruct (rd_cxx r) as [cx|]; [|reflexivity].
    destruct (cx_is_dynamic cx), (ctx_is_microsoft ctx); reflexivity.
Qed.

Lemma GetRecordLayout_vtables_witness :
  List.length (FirstVTable (build_layout (sample_ctx true) sample_record)) = 1%nat.
Proof.
  apply (proj2 (proj2 (GetRecordLayout_vtables (sample_ctx true) sample_cursor
                         sample_record _ eq_refl eq_refl))).
Defined.

(** X3: for a C++ record, the layout holds one [NonVirtualBase] slot per
    non-virtual direct base, one [VirtualBase] slot per virtual base, one
    [VTorDisp] slot per virtual base that has a vtordisp, a
    [VirtualBaseTablePtr] slot exactly when the class owns its vbptr, and
    one [Normal] slot per field. *)
Theorem GetRecordLayout_slot_counts : forall ctx cursor r cx layout,
  cursor_record cursor = Some r ->
  rd_cxx r = Some cx ->
  pathogen_GetRecordLayout ctx cursor = Some layout ->
  count_kind NonVirtualBase (FirstField layout) =
    List.length (filter (fun b => negb (bs_virtual b)) (cx_bases cx)) /\
  count_kind VirtualBase (FirstField layout) = List.length (cx_vbases cx) /\
  count_kind VTorDisp (FirstField layout) =
    List.length (filter (fun b => rl_has_vtordisp (rd_layout r) (bs_record b)) (cx_vbases cx)) /\
  count_kind VirtualBaseTablePtr (FirstField layout) =
    (if rl_has_own_vbptr (rd_layout r) then 1 else 0)%nat /\
  count_kind Normal (FirstField layout) = List.length (rd_fields r).
Proof.
  intros ctx cursor r cx layout Hr Hcx Hl.
  destruct (LayoutFacts.get_layout_some ctx cursor r layout Hr Hl) as [-> _].
  rewrite SlotOrder.build_layout_fields.
  unfold layout_insertions; rewrite Hcx.
  repeat split;
    rewrite VPtr.count_kind_insert_all, LayoutFacts.count_kind_nil, !VPtr.count_kind_app,
      LayoutFacts.count_kind_vptr, LayoutFacts.count_kind_nonvirtual,
      LayoutFacts.count_kind_vbptr, LayoutFacts.count_kind_normal,
      LayoutFacts.count_kind_virtual; simpl; lia.
Qed.

Lemma GetRecordLayout_slot_counts_witness :
  count_kind Normal (FirstField (build_layout (sample_ctx false) sample_record)) = 3%nat.
Proof.
  apply (proj2 (proj2 (proj2 (proj2 (GetRecordLayout_slot_counts (sample_ctx false)
    sample_cursor sample_record sample_cxx _ eq_refl eq_refl eq_refl))))).
Defined.

(** X4: a layout holds a [VTablePtr] slot exactly when the record is a C++
    class that either is dynamic without a primary base outside the
    Microsoft ABI or owns its virtual-function pointer; it then holds one. *)
Theorem GetRecordLayout_vtable_pointer_slot : forall ctx cursor r layout,
  cursor_record cursor = Some r ->
  pathogen_GetRecordLayout ctx cursor = Some layout ->
  count_kind VTablePtr (FirstField layout) =
    match rd_cxx r with
    | Some cx =>
        if (cx_is_dynamic cx && negb (isSome (rl_primary_base (rd_layout r)))
            && negb (ctx_is_microsoft ctx)) || rl_has_own_vfptr (rd_layout r)
        then 1%nat else 0%nat
    | None => 0%nat
    end.
Proof.
  intros ctx cursor r layout Hr Hl.
  destruct (LayoutFacts.get_layout_some ctx cursor r layout Hr Hl) as [-> _].
  rewrite SlotOrder.build_layout_fields.
  unfold layout_insertions.
  rewrite VPtr.count_kind_insert_all, LayoutFacts.count_kind_nil.
  destruct (rd_cxx r) as [cx|]; rewrite !VPtr.count_kind_app, LayoutFacts.count_kind_normal.
  - rewrite LayoutFacts.count_kind_vptr, LayoutFacts.count_kind_nonvirtual,
      LayoutFacts.count_kind_vbptr, LayoutFacts.count_kind_virtual; simpl.
    unfold IsMsLayout. destruct (_ || _); reflexivity.
  - reflexivity.
Qed.

Lemma GetRecordLayout_vtable_pointer_slot_witness :
  count_kind VTablePtr (FirstField (build_layout (sample_ctx true) sample_record)) = 1%nat.
Proof.
  apply (GetRecordLayout_vtable_pointer_slot (sample_ctx true) sample_cursor
           sample_record _ eq_refl eq_refl).
Defined.

(** X5: for a record that is not a C++ class, the layout holds only the
    normal fields, in declaration order whenever the field offsets do not
    decrease; it has no v-tables, is not marked as a C++ record, and its
    non-virtual size and alignment are zero. *)
Theorem GetRecordLayout_plain_record : forall ctx cursor r layout,
  cursor_record cursor = Some r ->
  rd_cxx r = None ->
  pathogen_GetRecordLayout ctx cursor = Some layout ->
  Forall (fun g => Kind g = Normal) (FirstField layout) /\
  (field_offsets_monotone (rd_layout r) (List.length (rd_fields r)) ->
   FirstField layout = normal_fields_from ctx (rd_layout r) 0 (rd_fields r)) /\
  FirstVTable layout = [] /\ IsCppRecord layout = false /\
  NonVirtualSize layout = 0 /\ NonVirtualAlignment layout = 0.
Proof.
  intros ctx cursor r layout Hr Hcx Hl.
  destruct (LayoutFacts.get_layout_some ctx cursor r layout Hr Hl) as [-> _].
  assert (Hins : layout_insertions ctx r = normal_fields_from ctx (rd_layout r) 0 (rd_fields r)).
  { unfold layout_insertions; rewrite Hcx; simpl; apply app_nil_r. }
  split; [|split; [|split; [|split]]].
  - rewrite SlotOrder.build_layout_fields. apply Forall_forall; intros g Hg.
    apply VPtr.insert_all_in in Hg as [[]|Hg]. rewrite Hins in Hg.
    now apply VPtr.normal_fields_from_spec in Hg as [-> _].
  - intros Hm. rewrite SlotOrder.build_layout_fields, Hins.
    apply LayoutFacts.insert_all_in_order; simpl.
    apply Sorted_StronglySorted; [intros a b c; unfold offset_le; lia|].
    apply LayoutFacts.normal_fields_sorted. intros i _ Hi; apply Hm; simpl in Hi; lia.
  - unfold build_layout.
    rewrite LayoutFacts.fold_AddVTableLayout_vtables, LayoutFacts.fold_AddField_vtables.
    unfold layout_vtables; rewrite Hcx; reflexivity.
  - unfold build_layout.
    rewrite (proj1 (LayoutFacts.fold_AddVTableLayout_meta _ _)),
            (proj1 (LayoutFacts.fold_AddField_meta _ _)).
    simpl; rewrite Hcx; reflexivity.
  - unfold build_layout.
    rewrite (proj1 (proj2 (LayoutFacts.fold_AddVTableLayout_meta _ _))),
            (proj2 (proj2 (LayoutFacts.fold_AddVTableLayout_meta _ _))),
            (proj1 (proj2 (LayoutFacts.fold_AddField_meta _ _))),
            (proj2 (proj2 (LayoutFacts.fold_AddField_meta _ _))).
    simpl; rewrite Hcx; split; reflexivity.
Qed.

Lemma GetRecordLayout_plain_record_witness :
  FirstField (build_layout (sample_ctx false) sample_plain_record) =
  normal_fields_from (sample_ctx false) (rd_layout sample_plain_record) 0
    (rd_fields sample_plain_record).
Proof.
  apply (proj1 (proj2 (GetRecordLayout_plain_record (sample_ctx false)
    (CursorDecl (Some (DRecord sample_plain_record))) sample_plain_record _
    eq_refl eq_refl eq_refl))).
  intros i Hi. destruct i as [|i]; simpl in Hi |- *; [lia|].
  exfalso; lia.
Defined.

(** X6: every bit-field slot of a layout comes from a bit-field declared at
    some position [i]: its byte [Offset] times the char width plus its
    [BitFieldStart] is the field's bit offset, [BitFieldStart] lies below
    the char width, and [BitFieldWidth] is the declared width. Every other
    slot has [BitFieldStart] and [BitFieldWidth] zero. *)
Theorem GetRecordLayout_bitfield_position : forall ctx cursor r layout,
  cursor_record cursor = Some r ->
  Zpos (ctx_char_width ctx) <= 2 ^ 32 ->
  pathogen_GetRecordLayout ctx cursor = Some layout ->
  forall g, In g (FirstField layout) ->
    (IsBitField g = true ->
       exists i fd w,
         nth_error (rd_fields r) i = Some fd /\ FieldDeclaration g = Some fd /\
         fd_bit_width fd = Some w /\ Kind g = Normal /\
         Offset g * Zpos (ctx_char_width ctx) + BitFieldStart g =
           Z.of_N (rl_field_offset (rd_layout r) i) /\
         0 <= BitFieldStart g < Zpos (ctx_char_width ctx) /\
         BitFieldWidth g = w) /\
    (IsBitField g = false -> BitFieldStart g = 0 /\ BitFieldWidth g = 0).
Proof.
  intros ctx cursor r layout Hr Hcw Hl g Hg.
  destruct (LayoutFacts.get_layout_some ctx cursor r layout Hr Hl) as [-> _].
  rewrite SlotOrder.build_layout_fields in Hg.
  apply VPtr.insert_all_in in Hg as [[]|Hg].
  destruct (PathogenRecordFieldKind_eqb (Kind g) Normal) eqn:Hk.
  - assert (Hn : In g (normal_fields_from ctx (rd_layout r) 0 (rd_fields r))).
    { unfold layout_insertions in Hg.
      destruct (rd_cxx r) as [cx|]; simpl in Hg;
        repeat (apply in_app_or in Hg as [Hg|Hg]); try assumption;
        try (apply LayoutFacts.vptr_fields_kind in Hg as Hg');
        try (apply VPtr.nonvirtual_base_fields_kind in Hg as Hg');
        try (apply VPtr.vbptr_fields_kind in Hg as Hg');
        try (apply VPtr.virtual_base_fields_kind in Hg as Hg');
        try contradiction;
        try (destruct Hg' as [Hg'|Hg']);
        rewrite Hg' in Hk; discriminate. }
    apply LayoutFacts.normal_fields_from_in in Hn as (i & fd & Hi & ->).
    simpl. unfold toCharUnitsFromBits.
    set (c := Zpos (ctx_char_width ctx)).
    set (bits := Z.of_N (rl_field_offset (rd_layout r) i)).
    assert (Hb : 0 <= bits) by (unfold bits; lia).
    assert (Hc : 0 < c) by (unfold c; lia).
    rewrite Z.quot_div_nonneg by lia.
    pose proof (Z.div_mod bits c ltac:(lia)) as Hdm.
    pose proof (Z.mod_pos_bound bits c Hc) as Hmb.
    assert (Hsub : (bits - bits / c * c) mod 2 ^ 32 = bits mod c).
    { rewrite Z.mod_small; lia. }
    destruct (fd_bit_width fd) as [w|] eqn:Hw; simpl; split; intros H; try discriminate.
    + exists i, fd, w. change (Z.pow_pos 2 32) with (2 ^ 32). rewrite Hsub.
      repeat split; try assumption; lia.
    + split; reflexivity.
  - assert (Hk' : Kind g <> Normal) by (intros E; rewrite E in Hk; discriminate).
    destruct (LayoutFacts.non_normal_plain ctx r g Hg Hk') as (H1 & H2 & H3).
    split; intros H; [congruence|split; assumption].
Qed.

Lemma GetRecordLayout_bitfield_position_witness :
  exists i fd w,
    nth_error (rd_fields sample_plain_record) i = Some fd /\ fd_bit_width fd = Some w /\
    Offset sample_plain_y * 8 + BitFieldStart sample_plain_y =
      Z.of_N (rl_field_offset (rd_layout sample_plain_record) i).
Proof.
  assert (Hg : In sample_plain_y (FirstField (build_layout (sample_ctx false) sample_plain_record))).
  { vm_compute. right; left; reflexivity. }
  destruct (proj1 (GetRecordLayout_bitfield_position (sample_ctx false)
    (CursorDecl (Some (DRecord sample_plain_record))) sample_plain_record _
    eq_refl ltac:(vm_compute; discriminate) eq_refl sample_plain_y Hg) eq_refl)
    as (i & fd & w & Hi & _ & Hw & _ & Hpos & _).
  exists i, fd, w; split; [exact Hi|split; [exact Hw|exact Hpos]].
Defined.

(** X7: every [VTorDisp] slot of a layout sits four bytes before a
    [VirtualBase] slot of the same type, provided the virtual base offsets
    leave room for the subtraction in [int64_t]. *)
Theorem GetRecordLayout_vtordisp_before_vbase : forall ctx cursor r cx layout,
  cursor_record cursor = Some r ->
  rd_cxx r = Some cx ->
  vbase_offsets_in_range cx (rd_layout r) ->
  pathogen_GetRecordLayout ctx cursor = Some layout ->
  forall v, In v (FirstField layout) -> Kind v = VTorDisp ->
    exists b, In b (FirstField layout) /\ Kind b = VirtualBase /\
              Type_ b = Type_ v /\ Offset b = Offset v + 4.
Proof.
  intros ctx cursor r cx layout Hr Hcx Hrange Hl v Hv Hk.
  destruct (LayoutFacts.get_layout_some ctx cursor r layout Hr Hl) as [-> _].
  assert (Hvi : In v (layout_insertions ctx r)).
  { rewrite SlotOrder.build_layout_fields in Hv.
    apply VPtr.insert_all_in in Hv as [[]|Hv]; exact Hv. }
  unfold layout_insertions in Hvi; rewrite Hcx in Hvi.
  assert (Hvv : In v (virtual_base_fields cx (rd_layout r))).
  { repeat (apply in_app_or in Hvi as [Hvi|Hvi]); try assumption;
      try (apply LayoutFacts.vptr_fields_kind in Hvi as Hk');
      try (apply VPtr.nonvirtual_base_fields_kind in Hvi as Hk');
      try (apply VPtr.vbptr_fields_kind in Hvi as Hk');
      try (apply VPtr.normal_fields_from_spec in Hvi as [Hk' _]);
      rewrite Hk' in Hk; discriminate. }
  unfold virtual_base_fields in Hvv. apply in_flat_map in Hvv as (bs & Hbs & Hin).
  apply in_app_or in Hin as [Hin|Hin].
  - destruct (rl_has_vtordisp (rd_layout r) (bs_record bs)); simpl in Hin; [|contradiction].
    destruct Hin as [<-|[]].
    set (b := {| Kind := VirtualBase; Offset := rl_vbase_offset (rd_layout r) (bs_record bs);
                 Name := if is_primary (rd_layout r) (bs_record bs)
                         then "primary_virtual_base" else "virtual_base";
                 Type_ := TDecl (bs_type bs); FieldDeclaration := None; IsBitField := false;
                 BitFieldStart := 0; BitFieldWidth := 0;
                 IsPrimaryBase := is_primary (rd_layout r) (bs_record bs) |}).
    exists b; split; [|split; [reflexivity|split; [reflexivity|]]].
    + rewrite SlotOrder.build_layout_fields.
      apply (Permutation_in b (Permutation_sym (LayoutFacts.insert_all_perm _ []))).
      simpl. unfold layout_insertions; rewrite Hcx.
      apply in_or_app; right; apply in_or_app; right.
      unfold virtual_base_fields. apply in_flat_map. exists bs; split; [assumption|].
      apply in_or_app; right; left; reflexivity.
    + simpl. specialize (Hrange bs Hbs).
      rewrite LayoutFacts.to_int64_small by lia. lia.
  - destruct Hin as [<-|[]]; discriminate.
Qed.

Lemma GetRecordLayout_vtordisp_before_vbase_witness :
  exists b, In b (FirstField (build_layout (sample_ctx true) sample_vbase_record)) /\
            Kind b = VirtualBase /\ Offset b = 16.
Proof.
  set (v := new_field VTorDisp 12 "vtordisp" (TDecl 7)).
  assert (Hv : In v (FirstField (build_layout (sample_ctx true) sample_vbase_record))).
  { vm_compute. right; left; reflexivity. }
  destruct (GetRecordLayout_vtordisp_before_vbase (sample_ctx true)
    (CursorDecl (Some (DRecord sample_vbase_record))) sample_vbase_record sample_vbase_cxx _
    eq_refl eq_refl
    ltac:(intros b [<-|[]]; simpl; lia)
    eq_refl v Hv eq_refl) as (b & Hb & Hk & _ & Ho).
  exists b; split; [exact Hb|split; [exact Hk|rewrite Ho; reflexivity]].
Defined.

(** ** Operator overload information *)

Module OperatorFacts.

Lemma operator_entries_length : forall defs start,
  List.length (operator_entries start defs) = List.length defs.
Proof.
  induction defs as [|d defs IH]; intros start; simpl; [reflexivity|].
  now rewrite IH.
Qed.

Lemma operator_entries_nth : forall defs start n,
  (n < List.length defs)%nat ->
  exists e, nth_error (operator_entries start defs) n = Some e /\
            oo_Kind e = start + Z.of_nat n /\ oo_Name e <> None.
Proof.
  induction defs as [|d defs IH]; intros start n Hn; simpl in Hn; [lia|].
  destruct n as [|n]; simpl.
  - eexists; split; [reflexivity|]. simpl; split; [lia|discriminate].
  - destruct (IH (start + 1) n ltac:(lia)) as (e & He & Hk & Hname).
    exists e; split; [assumption|split; [lia|assumption]].
Qed.

End OperatorFacts.

(** X8: on a function declaration, [pathogen_getOperatorOverloadInfo]
    always points inside [OperatorInformation]: at the entry of the
    function's operator kind when that kind lies in [0 ..
    NUM_OVERLOADED_OPERATORS], and at the nameless [Invalid] entry in the
    [NUM_OVERLOADED_OPERATORS] slot otherwise. On any other cursor it
    returns null. *)
Theorem getOperatorOverloadInfo_in_bounds : forall operator_defs k,
  (exists index e,
     pathogen_getOperatorOverloadInfo operator_defs k (CursorDecl (Some DFunction)) = Some index /\
     read_operator_info operator_defs index = Some e /\
     oo_Kind e = (if (0 <=? k) && (k <=? NUM_OVERLOADED_OPERATORS operator_defs)
                  then k else NUM_OVERLOADED_OPERATORS operator_defs) /\
     (oo_Name e = None <-> k <= 0 \/ NUM_OVERLOADED_OPERATORS operator_defs <= k)) /\
  (forall cursor, cursor <> CursorDecl (Some DFunction) ->
     pathogen_getOperatorOverloadInfo operator_defs k cursor = None).
Proof.
  intros defs k; split.
  - unfold pathogen_getOperatorOverloadInfo, read_operator_info, OperatorInformation; simpl.
    set (N := NUM_OVERLOADED_OPERATORS defs).
    assert (HN : N = Z.of_nat (List.length defs) + 1) by reflexivity.
    assert (Hlast : nth_error
      ({| oo_Kind := 0; oo_Name := None; oo_Spelling := None; oo_IsUnary := false;
          oo_IsBinary := false; oo_IsMemberOnly := false |}
       :: operator_entries 1 defs ++
       [{| oo_Kind := N; oo_Name := None; oo_Spelling := None; oo_IsUnary := false;
           oo_IsBinary := false; oo_IsMemberOnly := false |}]) (Z.to_nat N) =
      Some {| oo_Kind := N; oo_Name := None; oo_Spelling := None; oo_IsUnary := false;
              oo_IsBinary := false; oo_IsMemberOnly := false |}).
    { rewrite HN, Z2Nat.inj_add, Nat2Z.id by lia. rewrite Nat.add_comm. simpl.
      rewrite nth_error_app2 by (rewrite OperatorFacts.operator_entries_length; lia).
      rewrite OperatorFacts.operator_entries_length, Nat.sub_diag. reflexivity. }
    assert (HNk : (N <? 0) = false) by (apply Z.ltb_ge; lia).
    destruct ((k <? 0) || (N <? k)) eqn:Hout.
    + apply orb_true_iff in Hout.
      eexists N, _; split; [reflexivity|]. rewrite HNk. split; [exact Hlast|].
      simpl. split.
      * destruct ((0 <=? k) && (k <=? N)) eqn:E; [|reflexivity].
        apply andb_true_iff in E as [E1 E2]; apply Z.leb_le in E1, E2.
        destruct Hout as [H|H]; apply Z.ltb_lt in H; lia.
      * split; [intros _|reflexivity].
        destruct Hout as [H|H]; apply Z.ltb_lt in H; lia.
    + apply orb_false_iff in Hout as [H1 H2]; apply Z.ltb_ge in H1, H2.
      assert (Hin : (0 <=? k) && (k <=? N) = true) by (apply andb_true_iff; split; apply Z.leb_le; lia).
      rewrite Hin.
      assert (Hk0 : (k <? 0) = false) by (apply Z.ltb_ge; lia).
      destruct (Z.eq_dec k 0) as [->|Hk].
      * eexists 0, _; split; [reflexivity|split; [reflexivity|]]. simpl; split; [reflexivity|].
        split; [intros _; left; lia|reflexivity].
      * destruct (Z.eq_dec k N) as [->|HkN].
        -- eexists N, _; split; [reflexivity|split; [rewrite HNk; exact Hlast|]]. simpl; split; [reflexivity|].
           split; [intros _; right; lia|reflexivity].
        -- destruct (OperatorFacts.operator_entries_nth defs 1 (Z.to_nat k - 1) ltac:(lia))
             as (e & He & Hke & Hname).
           exists k, e; split; [reflexivity|split].
           ++ rewrite Hk0. replace (Z.to_nat k) with (S (Z.to_nat k - 1)) by lia. simpl.
              rewrite nth_error_app1; [exact He|].
              rewrite OperatorFacts.operator_entries_length; lia.
           ++ split; [lia|]. split; [intros E; contradiction|intros [H|H]; lia].
  - intros cursor Hc. unfold pathogen_getOperatorOverloadInfo.
    destruct cursor as [[[r|init| |]|]| |]; simpl; try reflexivity. contradiction.
Qed.

Lemma getOperatorOverloadInfo_in_bounds_witness :
  pathogen_getOperatorOverloadInfo [] 3 (CursorDecl (Some (DVar NoInit))) = None.
Proof.
  apply (proj2 (getOperatorOverloadInfo_in_bounds [] 3)). discriminate.
Defined.

(** ** Class template specializations *)

Module TemplateFacts.


End TemplateFacts.

(** X9: [pathogen_GetSpecializationKind] answers [Invalid] exactly when the
    cursor does not designate a class template specialization, and a value
    from 1 to 5 otherwise. [pathogen_InstantiateSpecializedClassTemplate]
    asks [Sema] to instantiate at most once, and only when that kind is
    [Undeclared]; it returns false exactly when the kind is [Invalid] or
    [Sema] reports a failure. *)
Theorem InstantiateSpecializedClassTemplate_kind : forall as_spec cursor,
  (pathogen_GetSpecializationKind as_spec cursor = PathogenTSK_Invalid <->
     cursor_specialization as_spec cursor = None) /\
  0 <= pathogen_GetSpecializationKind as_spec cursor <= 5 /\
  (List.length (snd (pathogen_InstantiateSpecializedClassTemplate as_spec cursor)) <= 1)%nat /\
  (snd (pathogen_InstantiateSpecializedClassTemplate as_spec cursor) <> [] <->
     pathogen_GetSpecializationKind as_spec cursor = PathogenTSK_Undeclared) /\
  (fst (pathogen_InstantiateSpecializedClassTemplate as_spec cursor) = false <->
     pathogen_GetSpecializationKind as_spec cursor = PathogenTSK_Invalid \/
     exists s, cursor_specialization as_spec cursor = Some s /\
               pathogen_GetSpecializationKind as_spec cursor = PathogenTSK_Undeclared /\
               ctsd_instantiation_fails s = true).
Proof.
  intros as_spec cursor.
  unfold pathogen_GetSpecializationKind, pathogen_InstantiateSpecializedClassTemplate,
    PathogenTSK_Invalid, PathogenTSK_Undeclared.
  assert (Hnone : forall b,
    (0 = 0 <-> @None ClassTemplateSpecializationDecl = None) /\ 0 <= 0 <= 5 /\
    (List.length (@nil nat) <= 1)%nat /\ (@nil nat <> [] <-> 0 = 1) /\
    (false = false <-> 0 = 0 \/ exists s, @None ClassTemplateSpecializationDecl = Some s /\
                                 0 = 1 /\ ctsd_instantiation_fails s = b)).
  { intros b. split; [split; reflexivity|]. split; [lia|]. split; [simpl; lia|].
    split; [split; [intros H; exfalso; apply H; reflexivity|discriminate]|].
    split; [intros _; left; reflexivity|reflexivity]. }
  destruct (clang_isDeclaration cursor) eqn:Hd; simpl.
  - destruct (cursor_specialization as_spec cursor) as [s|] eqn:Hs; [|apply (Hnone true)].
    destruct (ctsd_specialization_kind s) eqn:Hk; simpl;
      (split; [split; discriminate|]); (split; [lia|]); (split; [simpl; lia|]).
    + split; [split; [intros _; reflexivity|intros _; discriminate]|].
      destruct (ctsd_instantiation_fails s) eqn:Hf; simpl; split.
      * intros _; right; exists s; auto.
      * intros _; reflexivity.
      * discriminate.
      * intros [H|(s' & H1 & H2 & H3)]; [discriminate|].
        injection H1 as <-. congruence.
    + split; [split; [intros H; exfalso; apply H; reflexivity|discriminate]|].
      split; [discriminate|intros [H|(s' & H1 & H2 & H3)]; discriminate].
    + split; [split; [intros H; exfalso; apply H; reflexivity|discriminate]|].
      split; [discriminate|intros [H|(s' & H1 & H2 & H3)]; discriminate].
    + split; [split; [intros H; exfalso; apply H; reflexivity|discriminate]|].
      split; [discriminate|intros [H|(s' & H1 & H2 & H3)]; discriminate].
    + split; [split; [intros H; exfalso; apply H; reflexivity|discriminate]|].
      split; [discriminate|intros [H|(s' & H1 & H2 & H3)]; discriminate].
  - assert (Hs : cursor_specialization as_spec cursor = None).
    { destruct cursor as [d| |]; simpl in Hd; try discriminate; reflexivity. }
    rewrite Hs. apply (Hnone true).
Qed.

Lemma InstantiateSpecializedClassTemplate_kind_witness :
  pathogen_GetSpecializationKind (fun _ => None) sample_cursor = PathogenTSK_Invalid.
Proof.
  apply (proj2 (proj1 (InstantiateSpecializedClassTemplate_kind (fun _ => None) sample_cursor))).
  reflexivity.
Defined.



(** ** Callability diagnostics *)

Module CallableFacts.

Lemma forallb_negb_filter {A} (f : A -> bool) (l : list A) :
  forallb (fun x => negb (f x)) l = true <-> filter f l = [].
Proof.
  induction l as [|x l IH]; simpl; [tauto|].
  destruct (f x); simpl; [split; discriminate|exact IH].
Qed.

Section Facts.

Variable isVoidType : nat -> bool.
Variable isIncompleteType : nat -> bool.
Variable RequireCompleteType : nat -> bool * nat.
Variable print_type : nat -> string.

Lemma diagnose_times_spec : forall n d t,
  IsHandlingParameters (diagnose_times print_type n d t) = IsHandlingParameters d /\
  Diagnostics (diagnose_times print_type n d t) =
    Diagnostics d ++ repeat (incomplete_message print_type (IsHandlingParameters d) t) n /\
  DiagnosticWasReceived (diagnose_times print_type n d t) =
    match n with O => DiagnosticWasReceived d | S _ => true end.
Proof.
  induction n as [|n IH]; intros d t; simpl.
  - rewrite app_nil_r; auto.
  - destruct (IH (emitDiagnostic print_type d t) t) as (H1 & H2 & H3).
    simpl in *. rewrite H1, H2, H3, <- app_assoc.
    split; [reflexivity|split; [reflexivity|destruct n; reflexivity]].
Qed.

(** One [RequireCompleteType] step: what it appends and when. *)
Lemma require_complete_spec : forall ok d t,
  let r := require_complete RequireCompleteType print_type ok d t in
  IsHandlingParameters (snd r) = IsHandlingParameters d /\
  fst r = ok && negb (fst (RequireCompleteType t)) /\
  exists extra,
    Diagnostics (snd r) = Diagnostics d ++ extra /\
    Forall (fun m => m = incomplete_message print_type (IsHandlingParameters d) t) extra /\
    (fst (RequireCompleteType t) = true -> DiagnosticWasReceived d = false ->
       extra <> []) /\
    (fst (RequireCompleteType t) = false -> snd (RequireCompleteType t) = O -> extra = []).
Proof.
  intros ok d t; unfold require_complete.
  destruct (RequireCompleteType t) as [fails calls]; simpl.
  destruct (diagnose_times_spec calls d t) as (H1 & H2 & H3).
  destruct fails; simpl.
  - unfold ensureDiagnosticEmitted.
    destruct (DiagnosticWasReceived (diagnose_times print_type calls d t)) eqn:Hr; simpl.
    + split; [assumption|split; [now rewrite andb_false_r|]].
      exists (repeat (incomplete_message print_type (IsHandlingParameters d) t) calls).
      split; [assumption|split; [apply Forall_forall; intros m Hm; now apply repeat_spec in Hm|]].
      split; [|discriminate].
      intros _ Hd. destruct calls; [congruence|discriminate].
    + rewrite H1. split; [reflexivity|split; [now rewrite andb_false_r|]].
      exists (repeat (incomplete_message print_type (IsHandlingParameters d) t) calls ++
              [incomplete_message print_type (IsHandlingParameters d) t]).
      split; [rewrite H2, app_assoc; reflexivity|].
      split; [|split; [intros _ _; destruct calls; discriminate|discriminate]].
      apply Forall_forall; intros m Hm. apply in_app_or in Hm as [Hm|[<-|[]]];
        [now apply repeat_spec in Hm|reflexivity].
  - split; [assumption|split; [now rewrite andb_true_r|]].
    exists (repeat (incomplete_message print_type (IsHandlingParameters d) t) calls).
    split; [assumption|split; [apply Forall_forall; intros m Hm; now apply repeat_spec in Hm|]].
    split; [discriminate|intros _ Hc; simpl in Hc; now subst].
Qed.

Definition message_shape (returnType : nat) (params : list nat) (m : string) : Prop :=
  m = incomplete_message print_type false returnType \/
  exists p, In p params /\ m = incomplete_message print_type true p.

(** The parameter loop. *)
Lemma params_spec : forall params ok d,
  IsHandlingParameters d = true ->
  let r := fold_left (check_parameter RequireCompleteType print_type) params (ok, d) in
  IsHandlingParameters (snd r) = true /\
  fst r = ok && forallb (fun p => negb (fst (RequireCompleteType p))) params /\
  exists extra,
    Diagnostics (snd r) = Diagnostics d ++ extra /\
    Forall (fun m => exists p, In p params /\ m = incomplete_message print_type true p) extra /\
    (List.length (filter (fun p => fst (RequireCompleteType p)) params) <= List.length extra)%nat /\
    ((forall p, In p params -> fst (RequireCompleteType p) = false ->
                snd (RequireCompleteType p) = O) ->
     forallb (fun p => negb (fst (RequireCompleteType p))) params = true -> extra = []).
Proof.
  induction params as [|p params IH]; intros ok d Hd; simpl.
  - rewrite andb_true_r. split; [assumption|split; [reflexivity|]].
    exists []; rewrite app_nil_r; repeat split; auto.
  - set (d0 := {| IsHandlingParameters := IsHandlingParameters d; Diagnostics := Diagnostics d;
                  DiagnosticWasReceived := false |}).
    destruct (require_complete_spec ok d0 p) as (R1 & R2 & extra1 & E1 & F1 & N1 & Z1).
    destruct (require_complete RequireCompleteType print_type ok d0 p) as [ok1 d1] eqn:Hrc.
    simpl in R1, R2, E1. simpl in F1.
    destruct (IH ok1 d1 ltac:(rewrite R1; exact Hd)) as (I1 & I2 & extra2 & E2 & F2 & L2 & Z2).
    split; [assumption|split].
    + rewrite I2, R2, andb_assoc. reflexivity.
    + exists (extra1 ++ extra2). split; [rewrite E2, E1, app_assoc; reflexivity|split; [|split]].
      * apply Forall_app; split.
        -- eapply Forall_impl; [|exact F1]; intros m ->. exists p; split; [left; reflexivity|].
           rewrite Hd; reflexivity.
        -- eapply Forall_impl; [|exact F2]; intros m (q & Hq & ->). exists q; split; [right; assumption|reflexivity].
      * rewrite length_app. destruct (fst (RequireCompleteType p)) eqn:Hf; simpl.
        -- assert (extra1 <> []) by (apply N1; reflexivity).
           destruct extra1; [congruence|simpl; lia].
        -- lia.
      * intros Hz Hall. apply andb_true_iff in Hall as [Hp Hall].
        apply negb_true_iff in Hp.
        rewrite Z1, Z2; auto.
Qed.

End Facts.

End CallableFacts.

(** X12: the two assertions that end [pathogen_IsFunctionTypeCallable]
    hold whenever [RequireCompleteType] only calls the diagnoser when it
    fails: a callable function type leaves no diagnostic, and a function
    type that is not callable leaves at least one. *)
Theorem IsFunctionTypeCallable_assertions :
  forall isVoidType isIncompleteType RequireCompleteType print_type returnType params,
  (forall t, fst (RequireCompleteType t) = false -> snd (RequireCompleteType t) = O) ->
  let r := callable_checks isVoidType isIncompleteType RequireCompleteType print_type
             returnType params in
  (fst r = true -> Diagnostics (snd r) = []) /\
  (fst r = false -> Diagnostics (snd r) <> []).
Proof.
  intros isVoid isInc Req print rt params Hz; unfold callable_checks.
  set (d0 := {| IsHandlingParameters := false; Diagnostics := []; DiagnosticWasReceived := false |}).
  assert (Hret : let r := check_return_type isVoid isInc Req print rt d0 in
                 (fst r = true -> Diagnostics (snd r) = []) /\
                 (fst r = false -> Diagnostics (snd r) <> [])).
  { unfold check_return_type.
    destruct (isVoid rt); [simpl; split; [reflexivity|discriminate]|].
    destruct (negb (isInc rt)); [simpl; split; [reflexivity|discriminate]|].
    destruct (CallableFacts.require_complete_spec Req print true d0 rt)
      as (_ & R2 & extra & E & _ & N & Z).
    simpl in R2, E |- *. rewrite R2, E. simpl.
    destruct (fst (Req rt)) eqn:Hf; simpl.
    - split; [discriminate|intros _; apply N; reflexivity].
    - split; [intros _; apply Z; [reflexivity|apply Hz, Hf]|discriminate]. }
  destruct (check_return_type isVoid isInc Req print rt d0) as [ok d1]. simpl in Hret.
  set (d2 := {| IsHandlingParameters := true; Diagnostics := Diagnostics d1;
                DiagnosticWasReceived := DiagnosticWasReceived d1 |}).
  destruct (CallableFacts.params_spec Req print params ok d2 eq_refl)
    as (_ & P2 & extra & E & _ & L & Z).
  simpl. rewrite P2, E. simpl.
  destruct ok; simpl.
  - destruct (forallb (fun p => negb (fst (Req p))) params) eqn:Hall.
    + split; [intros _|discriminate].
      rewrite (proj1 Hret eq_refl), Z; auto.
    + split; [discriminate|intros _].
      assert (Hne : filter (fun p => fst (Req p)) params <> []).
      { clear -Hall. induction params as [|p params IH]; simpl in *; [discriminate|].
        destruct (fst (Req p)); simpl in *; [discriminate|auto]. }
      destruct extra; [destruct (filter (fun p => fst (Req p)) params); [congruence|simpl in L; lia]|].
      destruct (Diagnostics d1); discriminate.
  - split; [discriminate|intros _].
    destruct (Diagnostics d1) eqn:Hd; [exfalso; apply (proj2 Hret eq_refl); reflexivity|discriminate].
Qed.

Lemma IsFunctionTypeCallable_assertions_witness :
  Diagnostics (snd (callable_checks (fun _ => false) (fun t => Nat.eqb t 1%nat)
     (fun t => (Nat.eqb t 1%nat, if Nat.eqb t 1%nat then 2%nat else 0%nat)) (fun _ => "S")
     1%nat [2; 1]%nat)) <> [].
Proof.
  apply (proj2 (IsFunctionTypeCallable_assertions (fun _ => false) (fun t => Nat.eqb t 1%nat)
     (fun t => (Nat.eqb t 1%nat, if Nat.eqb t 1%nat then 2%nat else 0%nat)) (fun _ => "S")
     1%nat [2; 1]%nat ltac:(intros [|[|t]]; simpl; congruence))).
  reflexivity.
Defined.

(** X13: [pathogen_IsFunctionTypeCallable] returns null exactly when none
    of its [RequireCompleteType] calls fails; otherwise it returns at least
    one diagnostic per failing call, and every diagnostic reads
    "Return type '<T>' is incomplete." for the return type or
    "Argument type '<T>' is incomplete." for a parameter type. *)
Theorem IsFunctionTypeCallable_diagnostics :
  forall isVoidType isIncompleteType RequireCompleteType print_type returnType params,
  (pathogen_IsFunctionTypeCallable isVoidType isIncompleteType RequireCompleteType print_type
     returnType params = None <->
   failing_checks isVoidType isIncompleteType RequireCompleteType returnType params = []) /\
  (forall ds,
     pathogen_IsFunctionTypeCallable isVoidType isIncompleteType RequireCompleteType print_type
       returnType params = Some ds ->
     (List.length (failing_checks isVoidType isIncompleteType RequireCompleteType returnType params)
        <= List.length ds)%nat /\
     Forall (CallableFacts.message_shape print_type returnType params) ds).
Proof.
  intros isVoid isInc Req print rt params.
  unfold pathogen_IsFunctionTypeCallable, callable_checks, failing_checks.
  set (d0 := {| IsHandlingParameters := false; Diagnostics := []; DiagnosticWasReceived := false |}).
  assert (Hret : let r := check_return_type isVoid isInc Req print rt d0 in
    fst r = (List.length
      (if isVoid rt || negb (isInc rt) then []
       else if fst (Req rt) then [(false, rt)] else []) =? 0)%nat /\
    (List.length (if isVoid rt || negb (isInc rt) then []
                  else if fst (Req rt) then [(false, rt)] else []) <=
     List.length (Diagnostics (snd r)))%nat /\
    Forall (fun m => m = incomplete_message print false rt) (Diagnostics (snd r))).
  { unfold check_return_type.
    destruct (isVoid rt); [simpl; auto|].
    destruct (isInc rt); simpl; [|auto].
    destruct (CallableFacts.require_complete_spec Req print true d0 rt)
      as (_ & R2 & extra & E & F & N & _).
    simpl in R2, E, F. rewrite R2, E. simpl.
    destruct (fst (Req rt)); simpl.
    - split; [reflexivity|split; [|exact F]].
      assert (extra <> []) by (apply N; reflexivity). destruct extra; [congruence|simpl; lia].
    - split; [reflexivity|split; [lia|exact F]]. }
  destruct (check_return_type isVoid isInc Req print rt d0) as [ok d1]. simpl in Hret.
  destruct Hret as (H1 & H2 & H3).
  set (d2 := {| IsHandlingParameters := true; Diagnostics := Diagnostics d1;
                DiagnosticWasReceived := DiagnosticWasReceived d1 |}).
  destruct (CallableFacts.params_spec Req print params ok d2 eq_refl)
    as (_ & P2 & extra & E & F & L & _).
  destruct (fold_left (check_parameter Req print) params (ok, d2)) as [ok' d'].
  simpl in P2, E. rewrite P2.
  split.
  - rewrite H1. set (ret := if isVoid rt || negb (isInc rt) then [] else _) in *.
    destruct ret as [|x ret]; simpl.
    + destruct (forallb _ params) eqn:Hall; simpl.
      * split; [intros _|reflexivity].
        apply (CallableFacts.forallb_negb_filter (fun p => fst (Req p))) in Hall. now rewrite Hall.
      * split; [discriminate|intros Hm].
        destruct (filter (fun p => fst (Req p)) params) eqn:Hf.
        -- apply (CallableFacts.forallb_negb_filter (fun p => fst (Req p))) in Hf; congruence.
        -- discriminate.
    + split; discriminate.
  - intros ds Hds.
    destruct (ok && forallb _ params); [discriminate|].
    injection Hds as <-. rewrite E. simpl. split.
    + rewrite length_app, length_app, length_map. lia.
    + apply Forall_app; split.
      * eapply Forall_impl; [|exact H3]; intros m Hm; left; exact Hm.
      * eapply Forall_impl; [|exact F]; intros m Hm; right; exact Hm.
Qed.

Lemma IsFunctionTypeCallable_diagnostics_witness :
  (List.length (failing_checks (fun _ => false) (fun t => Nat.eqb t 1%nat)
     (fun t => (Nat.eqb t 1%nat, 0%nat)) 1%nat [1; 2]%nat) <=
   List.length ["Return type 'S' is incomplete."; "Argument type 'S' is incomplete."])%nat.
Proof.
  apply (proj2 (IsFunctionTypeCallable_diagnostics (fun _ => false) (fun t => Nat.eqb t 1%nat)
     (fun t => (Nat.eqb t 1%nat, 0%nat)) (fun _ => "S") 1%nat [1; 2]%nat)).
  reflexivity.
Defined.

(** ** Argument descriptors and arranged functions *)

Module FlagFacts.

Lemma testbit_set_flag : forall c flag flags n,
  Z.testbit (set_flag c flag flags) n = Z.testbit flags n || (c && Z.testbit flag n).
Proof.
  intros [|] flag flags n; unfold set_flag; simpl;
    [apply Z.lor_spec|now rewrite orb_false_r].
Qed.

Lemma lor_lt_pow2 : forall a b k,
  0 <= a < 2 ^ k -> 0 <= b < 2 ^ k -> 0 <= Z.lor a b < 2 ^ k.
Proof.
  intros a b k Ha Hb.
  assert (Hl : 0 <= Z.lor a b) by (apply Z.lor_nonneg; lia).
  split; [exact Hl|].
  destruct (Z.eq_dec (Z.lor a b) 0) as [E|E]; [lia|].
  destruct (Z.lt_ge_cases k 0) as [Hk|Hk]; [rewrite Z.pow_neg_r in Ha; lia|].
  apply Z.log2_lt_pow2; [lia|].
  rewrite Z.log2_lor by lia.
  apply Z.max_lub_lt.
  - destruct (Z.eq_dec a 0) as [->|Ha0]; [simpl; destruct (Z.eq_dec k 0) as [->|]; [|lia]|].
    + assert (b = 0) by (simpl in Hb; lia). subst. simpl in E. lia.
    + apply Z.log2_lt_pow2; lia.
  - destruct (Z.eq_dec b 0) as [->|Hb0]; [simpl; destruct (Z.eq_dec k 0) as [->|]; [|lia]|].
    + assert (a = 0) by (simpl in Ha; lia). subst. simpl in E. lia.
    + apply Z.log2_lt_pow2; lia.
Qed.

Lemma set_flag_lt_pow2 : forall c flag flags k,
  0 <= flags < 2 ^ k -> 0 <= flag < 2 ^ k -> 0 <= set_flag c flag flags < 2 ^ k.
Proof.
  intros [|] flag flags k Hf Hg; unfold set_flag; [now apply lor_lt_pow2|exact Hf].
Qed.

Lemma to_uint32_range : forall z, 0 <= to_uint32 z < 2 ^ 32.
Proof. intros z; unfold to_uint32; apply Z.mod_pos_bound; lia. Qed.

Lemma create_arguments_length : forall memory i args,
  List.length (create_arguments memory i args) = List.length args.
Proof.
  intros memory i args; revert i; induction args as [|[ty info] args IH]; intros i; simpl;
    [reflexivity|now rewrite IH].
Qed.

Lemma create_arguments_nth : forall memory args i j,
  nth_error (create_arguments memory i args) j =
  option_map (fun a => pathogen_CreateArgumentInfo (fst a) (snd a) (memory (S (i + j))))
    (nth_error args j).
Proof.
  intros memory args; induction args as [|[ty info] args IH]; intros i [|j]; simpl;
    [reflexivity|reflexivity|now rewrite Nat.add_0_r|].
  rewrite IH. now rewrite Nat.add_succ_r.
Qed.

End FlagFacts.

Ltac flag_range :=
  repeat (apply FlagFacts.set_flag_lt_pow2; [|unfold ArgumentFlags.HasCoerceToTypeType,
    ArgumentFlags.HasPaddingType, ArgumentFlags.HasUnpaddedCoerceAndExpandType,
    ArgumentFlags.IsInAllocaSRet, ArgumentFlags.IsIndirectByVal,
    ArgumentFlags.IsIndirectRealign, ArgumentFlags.IsSRetAfterThis,
    ArgumentFlags.IsInRegister, ArgumentFlags.CanBeFlattened,
    ArgumentFlags.IsSignExtended; lia]); lia.

Ltac argument_flag_bit :=
  rewrite ?FlagFacts.testbit_set_flag; unfold ArgumentFlags.HasCoerceToTypeType,
    ArgumentFlags.HasPaddingType, ArgumentFlags.HasUnpaddedCoerceAndExpandType,
    ArgumentFlags.IsInAllocaSRet, ArgumentFlags.IsIndirectByVal,
    ArgumentFlags.IsIndirectRealign, ArgumentFlags.IsSRetAfterThis,
    ArgumentFlags.IsInRegister, ArgumentFlags.CanBeFlattened,
    ArgumentFlags.IsSignExtended; simpl;
  rewrite ?andb_true_r, ?andb_false_r, ?orb_false_r; reflexivity.

Ltac argument_case :=
  cbn [ArgType ArgKind Flags Extra Extra2];
  split; [reflexivity|]; split; [reflexivity|];
  do 3 (split; [argument_flag_bit|]);
  split; [flag_range|]; split; [lia|];
  split; [|split]; intros E;
  first [reflexivity | lia | exfalso; apply E; reflexivity | discriminate E
        | destruct E as [E|[E|E]]; discriminate E].

(** X14: [pathogen_CreateArgumentInfo] stores the type and the numeric
    kind, sets [HasCoerceToTypeType] and [HasPaddingType] exactly from the
    ABI information, never sets [PaddingInRegister], keeps every flag within
    the eleven defined bits, stores an [Extra] that fits [uint32_t] and is
    0 for [Ignore], [Expand] and [CoerceAndExpand], and writes [Extra2] only
    for [IndirectAliased], leaving it as the output held before otherwise. *)
Theorem CreateArgumentInfo_fields : forall type info output,
  let out := pathogen_CreateArgumentInfo type info output in
  ArgType out = TDecl type /\
  ArgKind out = ABIArgKind_value (abi_kind info) /\
  Z.testbit (Flags out) 0 = abi_has_coerce_to_type info /\
  Z.testbit (Flags out) 1 = abi_has_padding_type info /\
  Z.testbit (Flags out) 3 = false /\
  0 <= Flags out < 2 ^ 11 /\
  0 <= Extra out < 2 ^ 32 /\
  (abi_kind info = ABIIgnore \/ abi_kind info = ABIExpand \/
   abi_kind info = ABICoerceAndExpand -> Extra out = 0) /\
  (abi_kind info = ABIIndirectAliased -> 0 <= Extra2 out < 2 ^ 32) /\
  (abi_kind info <> ABIIndirectAliased -> Extra2 out = Extra2 output).
Proof.
  intros type info output; unfold pathogen_CreateArgumentInfo; cbv zeta.
  pose proof (FlagFacts.to_uint32_range (abi_direct_offset info)).
  pose proof (FlagFacts.to_uint32_range (abi_indirect_align info)).
  pose proof (FlagFacts.to_uint32_range (abi_indirect_addr_space info)).
  pose proof (FlagFacts.to_uint32_range (abi_inalloca_field_index info)).
  destruct (abi_kind info); argument_case.
Qed.

Ltac function_flag_bit :=
  rewrite ?FlagFacts.testbit_set_flag; unfold ArrangedFunctionFlags.IsInstanceMethod,
    ArrangedFunctionFlags.IsChainCall, ArrangedFunctionFlags.IsNoReturn,
    ArrangedFunctionFlags.IsReturnsRetained, ArrangedFunctionFlags.IsNoCallerSavedRegs,
    ArrangedFunctionFlags.HasRegParm, ArrangedFunctionFlags.IsNoCfCheck,
    ArrangedFunctionFlags.IsVariadic, ArrangedFunctionFlags.UsesInAlloca,
    ArrangedFunctionFlags.HasExtendedParameterInfo; simpl;
  rewrite ?andb_true_r, ?andb_false_r, ?orb_false_r; reflexivity.

(** X15: the [FunctionFlags] of [pathogen_CreateArrangedFunction] have
    bit [i] set exactly when the [i]-th queried property holds
    ([isInstanceMethod] ... [usesInAlloca], then a non-empty extended
    parameter info list), and no bit above the tenth. *)
Theorem CreateArrangedFunction_flags : forall memory function,
  let flags := FunctionFlags (pathogen_CreateArrangedFunction memory function) in
  Z.testbit flags 0 = fi_is_instance_method function /\
  Z.testbit flags 1 = fi_is_chain_call function /\
  Z.testbit flags 2 = fi_is_no_return function /\
  Z.testbit flags 3 = fi_is_returns_retained function /\
  Z.testbit flags 4 = fi_is_no_caller_saved_regs function /\
  Z.testbit flags 5 = fi_has_reg_parm function /\
  Z.testbit flags 6 = fi_is_no_cf_check function /\
  Z.testbit flags 7 = fi_is_variadic function /\
  Z.testbit flags 8 = fi_uses_inalloca function /\
  Z.testbit flags 9 = (0 <? fi_ext_parameter_infos function)%nat /\
  0 <= flags < 2 ^ 10.
Proof.
  intros memory function; cbn [pathogen_CreateArrangedFunction FunctionFlags].
  unfold arranged_function_flags; cbv zeta.
  do 10 (split; [function_flag_bit|]).
  repeat (apply FlagFacts.set_flag_lt_pow2; [|unfold ArrangedFunctionFlags.IsInstanceMethod,
    ArrangedFunctionFlags.IsChainCall, ArrangedFunctionFlags.IsNoReturn,
    ArrangedFunctionFlags.IsReturnsRetained, ArrangedFunctionFlags.IsNoCallerSavedRegs,
    ArrangedFunctionFlags.HasRegParm, ArrangedFunctionFlags.IsNoCfCheck,
    ArrangedFunctionFlags.IsVariadic, ArrangedFunctionFlags.UsesInAlloca,
    ArrangedFunctionFlags.HasExtendedParameterInfo; lia]); lia.
Qed.

(** X16: [pathogen_CreateArrangedFunction] emits one argument descriptor per
    ABI argument, in order, argument [i] being [pathogen_CreateArgumentInfo]
    of that argument over slot [i + 1] of the allocation; [ArgumentCount] is
    the number of arguments when it fits [uint32_t]; the three calling
    conventions fit [uint8_t]. *)
Theorem CreateArrangedFunction_arguments : forall memory function,
  Z.of_nat (List.length (fi_arguments function)) < 2 ^ 32 ->
  let r := pathogen_CreateArrangedFunction memory function in
  ArgumentCount r = Z.of_nat (List.length (Arguments r)) /\
  List.length (Arguments r) = List.length (fi_arguments function) /\
  (forall i, nth_error (Arguments r) i =
     option_map (fun a => pathogen_CreateArgumentInfo (fst a) (snd a) (memory (S i)))
       (nth_error (fi_arguments function) i)) /\
  0 <= CallingConvention r < 2 ^ 8 /\
  0 <= EffectiveCallingConvention r < 2 ^ 8 /\
  0 <= AstCallingConvention r < 2 ^ 8.
Proof.
  intros memory function Hn; simpl.
  rewrite FlagFacts.create_arguments_length.
  split; [unfold to_uint32; apply Z.mod_small; lia|].
  split; [reflexivity|].
  split; [intros i; apply FlagFacts.create_arguments_nth|].
  repeat split; try (apply Z.mod_pos_bound; lia).
Qed.

Lemma CreateArrangedFunction_arguments_witness :
  ArgumentCount (pathogen_CreateArrangedFunction sample_argument_memory sample_function) = 2 /\
  nth_error (Arguments (pathogen_CreateArrangedFunction sample_argument_memory sample_function)) 1 =
    Some (pathogen_CreateArgumentInfo 1 sample_direct_arg (sample_argument_memory 2%nat)).
Proof.
  destruct (CreateArrangedFunction_arguments sample_argument_memory sample_function
              ltac:(vm_compute; reflexivity)) as (H1 & H2 & H3 & _).
  split; [rewrite H1, H2; reflexivity|rewrite H3; reflexivity].
Defined.

(** ** Constant values and their payloads *)

Module PayloadFacts.
Import ConstantValue.

Lemma compute_true_inv : forall evaluate cursor st st',
  pathogen_ComputeConstantValue evaluate cursor st = (true, st') ->
  exists e, folds cursor e /\ er_success (evaluate e) = true.
Proof.
  intros evaluate cursor st st' H.
  assert (He : forall e, evaluate_expression evaluate e st = (true, st') ->
               er_success (evaluate e) = true).
  { intros e H'; unfold evaluate_expression in H'.
    destruct (er_success (evaluate e)); [reflexivity|simpl in H'].
    destruct (er_diag (evaluate e)) as [n|]; [destruct (0 <? n)%nat|]; discriminate. }
  destruct cursor as [[[| [|e] | |]|]| e |]; simpl in H; try discriminate.
  - exists e; split; [right; reflexivity|eapply He; eassumption].
  - exists e; split; [left; reflexivity|eapply He; eassumption].
Qed.

Lemma fill_info_heap : forall res h,
  Kind (fst (fill_info res h)) <> String -> snd (fill_info res h) = h.
Proof.
  intros res h; unfold fill_info.
  destruct (er_val res) as [a|w bits| |[sl| |]|k]; simpl; auto.
  intros Hk; exfalso; apply Hk; reflexivity.
Qed.

Lemma fill_info_string : forall res h,
  Kind (fst (fill_info res h)) = String <->
  exists sl, er_val res = AVLValue (LBStringLiteral sl).
Proof.
  intros res h; unfold fill_info.
  destruct (er_val res) as [a|w bits| |[sl| |]|k]; simpl;
    try (split; [discriminate|intros [sl' H]; discriminate H]).
  - destruct (ai_signed a); split; try discriminate; intros [sl' H]; discriminate H.
  - split; [intros _; exists sl; reflexivity|reflexivity].
Qed.

Lemma heap_fresh_malloc : forall h contents,
  heap_fresh h -> heap_fresh (snd (malloc h contents)).
Proof.
  intros h contents Hf b Hb; simpl in Hb |- *.
  destruct Hb as [<-|Hb]; simpl; [lia|].
  specialize (Hf b Hb). lia.
Qed.

Lemma filter_fresh : forall (bs : list (Z * list Z)) a,
  (forall b, In b bs -> fst b < a) ->
  filter (fun b => negb (fst b =? a)) bs = bs.
Proof.
  induction bs as [|b bs IH]; intros a Hlt; simpl; [reflexivity|].
  assert (Hb : fst b < a) by (apply Hlt; left; reflexivity).
  replace (fst b =? a) with false by (symmetry; apply Z.eqb_neq; lia). simpl.
  rewrite IH; [reflexivity|]. intros b' Hb'; apply Hlt; right; exact Hb'.
Qed.

End PayloadFacts.

(** X17: when the kind dispatch runs to its end (an integer that fits in
    an [int64_t], a float whose bit pattern fits in 64 bits, or an lvalue),
    a successful [pathogen_ComputeConstantValue] copies the side-effect and
    undefined-behaviour flags of the evaluation, yields the [String] kind
    exactly for string-literal lvalues and touches the heap only then; a
    float gives [FloatingPoint] with its size in bits and its bit pattern, a
    null pointer gives [NullPointer] with [SubKind] and [Value] 0, and an
    [Unknown] result comes from an lvalue that is not a string literal and
    keeps [APValue::getKind()] as [SubKind] and [Value] 0. *)
Theorem ComputeConstantValue_kinds : forall evaluate cursor st e,
  folds cursor e ->
  ConstantValue.er_success (evaluate e) = true ->
  ConstantValue.dispatch_completes (ConstantValue.er_val (evaluate e)) = true ->
  exists st',
    ConstantValue.pathogen_ComputeConstantValue evaluate cursor st = (true, st') /\
    ConstantValue.HasSideEffects (ConstantValue.info st') =
      ConstantValue.er_side_effects (evaluate e) /\
    ConstantValue.HasUndefinedBehavior (ConstantValue.info st') =
      ConstantValue.er_undefined_behavior (evaluate e) /\
    (ConstantValue.Kind (ConstantValue.info st') = ConstantValue.String <->
     exists sl, ConstantValue.er_val (evaluate e) =
                ConstantValue.AVLValue (ConstantValue.LBStringLiteral sl)) /\
    (ConstantValue.Kind (ConstantValue.info st') <> ConstantValue.String ->
     ConstantValue.heap st' = ConstantValue.heap st) /\
    (forall w bits, ConstantValue.er_val (evaluate e) = ConstantValue.AVFloat w bits ->
     ConstantValue.Kind (ConstantValue.info st') = ConstantValue.FloatingPoint /\
     ConstantValue.SubKind (ConstantValue.info st') = w /\
     ConstantValue.Value (ConstantValue.info st') = bits) /\
    (ConstantValue.er_val (evaluate e) = ConstantValue.AVNullPointer ->
     ConstantValue.Kind (ConstantValue.info st') = ConstantValue.NullPointer /\
     ConstantValue.SubKind (ConstantValue.info st') = 0 /\
     ConstantValue.Value (ConstantValue.info st') = 0) /\
    (ConstantValue.Kind (ConstantValue.info st') = ConstantValue.Unknown ->
     (exists b, ConstantValue.er_val (evaluate e) = ConstantValue.AVLValue b) /\
     ConstantValue.SubKind (ConstantValue.info st') =
       ConstantValue.getKind (ConstantValue.er_val (evaluate e)) /\
     ConstantValue.Value (ConstantValue.info st') = 0).
Proof.
  intros evaluate cursor st e Hc Hs Hd.
  rewrite (ConstantFacts.compute_success _ _ _ _ Hc Hs).
  eexists; split; [reflexivity|]; cbn [ConstantValue.info ConstantValue.heap].
  split; [|split; [|split; [|split; [|split; [|split]]]]].
  - unfold ConstantValue.fill_info.
    destruct (ConstantValue.er_val (evaluate e)) as [a|w bits| |[sl| |]|k]; reflexivity.
  - unfold ConstantValue.fill_info.
    destruct (ConstantValue.er_val (evaluate e)) as [a|w bits| |[sl| |]|k]; reflexivity.
  - apply PayloadFacts.fill_info_string.
  - apply PayloadFacts.fill_info_heap.
  - intros w bits Hv; unfold ConstantValue.fill_info; rewrite Hv; cbn.
    rewrite Hv in Hd; cbn in Hd. apply andb_true_iff in Hd as [H0 H64].
    apply Z.leb_le in H0; apply Z.ltb_lt in H64.
    unfold to_uint64; rewrite Z.mod_small by lia. auto.
  - intros Hv; unfold ConstantValue.fill_info; rewrite Hv; auto.
  - unfold ConstantValue.fill_info.
    destruct (ConstantValue.er_val (evaluate e)) as [a|w bits| |[sl| |]|k]; simpl;
      try (destruct (ConstantValue.ai_signed a)); intros Hk; try discriminate Hk;
      [eauto|eauto|discriminate Hd].
Qed.

Lemma ComputeConstantValue_kinds_witness :
  exists st',
    ConstantValue.pathogen_ComputeConstantValue (fun _ => int_result minus_one_i32)
      (CursorExpr 0) sample_state = (true, st') /\
    ConstantValue.heap st' = ConstantValue.heap sample_state.
Proof.
  destruct (ComputeConstantValue_kinds (fun _ => int_result minus_one_i32)
              (CursorExpr 0) sample_state 0%nat (or_introl eq_refl) eq_refl
              ltac:(vm_compute; reflexivity))
    as (st' & H1 & _ & _ & Hstr & Hheap & _).
  exists st'; split; [exact H1|apply Hheap].
  intros Hk; apply Hstr in Hk as [sl Hsl]; discriminate Hsl.
Defined.

(** X18: folding a string literal allocates one fresh block, at the next
    free address, holding the byte length followed by the bytes, and
    stores its (non-null) address as [Value]; allocation keeps every block
    below the next free address. *)
Theorem ComputeConstantValue_string_payload : forall evaluate cursor st e sl,
  folds cursor e ->
  ConstantValue.er_success (evaluate e) = true ->
  ConstantValue.er_val (evaluate e) =
    ConstantValue.AVLValue (ConstantValue.LBStringLiteral sl) ->
  exists st',
    ConstantValue.pathogen_ComputeConstantValue evaluate cursor st = (true, st') /\
    ConstantValue.Value (ConstantValue.info st') =
      Zpos (ConstantValue.next_addr (ConstantValue.heap st)) /\
    ConstantValue.Value (ConstantValue.info st') <> 0 /\
    ConstantValue.next_addr (ConstantValue.heap st') =
      Pos.succ (ConstantValue.next_addr (ConstantValue.heap st)) /\
    ConstantValue.blocks (ConstantValue.heap st') =
      (ConstantValue.Value (ConstantValue.info st'),
       Z.of_nat (List.length (ConstantValue.sl_bytes sl)) :: ConstantValue.sl_bytes sl)
      :: ConstantValue.blocks (ConstantValue.heap st) /\
    ConstantValue.allocated (ConstantValue.heap st')
      (ConstantValue.Value (ConstantValue.info st')) = true /\
    (heap_fresh (ConstantValue.heap st) -> heap_fresh (ConstantValue.heap st')).
Proof.
  intros evaluate cursor st e sl Hc Hs Hv.
  rewrite (ConstantFacts.compute_success _ _ _ _ Hc Hs).
  eexists; split; [reflexivity|]; cbn [ConstantValue.info ConstantValue.heap].
  unfold ConstantValue.fill_info; rewrite Hv; cbn.
  split; [reflexivity|]. split; [discriminate|].
  split; [reflexivity|]. split; [reflexivity|].
  split; [unfold ConstantValue.allocated; cbn; rewrite ?Z.eqb_refl, ?Pos.eqb_refl; reflexivity|].
  apply (PayloadFacts.heap_fresh_malloc (ConstantValue.heap st)
           (Z.of_nat (List.length (ConstantValue.sl_bytes sl)) :: ConstantValue.sl_bytes sl)).
Qed.

Lemma ComputeConstantValue_string_payload_witness :
  exists st',
    ConstantValue.pathogen_ComputeConstantValue (fun _ => string_result wide_literal)
      (CursorExpr 0) sample_state = (true, st') /\
    ConstantValue.blocks (ConstantValue.heap st') = [(1, [6; 104; 0; 105; 0; 0; 0])].
Proof.
  destruct (ComputeConstantValue_string_payload (fun _ => string_result wide_literal)
              (CursorExpr 0) sample_state 0%nat wide_literal
              (or_introl eq_refl) eq_refl eq_refl)
    as (st' & H1 & H2 & _ & _ & H5 & _).
  exists st'; split; [exact H1|]. rewrite H5, H2; reflexivity.
Defined.

(** X19: on a heap whose blocks all lie below the next free address,
    [pathogen_DeletePathogenConstantValueInfo] applied to the info of a
    successful [pathogen_ComputeConstantValue] never faults, frees exactly
    what the computation allocated (the heap's blocks are those before the
    computation) and clears [Value] of a string. *)
Theorem ComputeConstantValue_delete_round_trip : forall evaluate cursor st st',
  heap_fresh (ConstantValue.heap st) ->
  ConstantValue.pathogen_ComputeConstantValue evaluate cursor st = (true, st') ->
  exists i' h',
    ConstantValue.pathogen_DeletePathogenConstantValueInfo
      (Some (ConstantValue.info st')) (ConstantValue.heap st') = Returns (Some i', h') /\
    ConstantValue.blocks h' = ConstantValue.blocks (ConstantValue.heap st) /\
    heap_fresh h' /\
    (ConstantValue.Kind (ConstantValue.info st') = ConstantValue.String ->
     ConstantValue.Value i' = 0).
Proof.
  intros evaluate cursor st st' Hf H.
  destruct (PayloadFacts.compute_true_inv _ _ _ _ H) as (e & Hc & Hs).
  rewrite (ConstantFacts.compute_success _ _ _ _ Hc Hs) in H.
  injection H as <-. cbn [ConstantValue.info ConstantValue.heap].
  destruct (Z.eq_dec (ConstantValue.Kind (fst (ConstantValue.fill_info (evaluate e)
                        (ConstantValue.heap st)))) ConstantValue.String) as [Hk|Hk].
  - pose proof Hk as Hk'.
    apply PayloadFacts.fill_info_string in Hk' as [sl Hv].
    unfold ConstantValue.fill_info in *; rewrite Hv in *; cbn in *.
    unfold ConstantValue.free, ConstantValue.allocated; cbn.
    rewrite Pos.eqb_refl; cbn.
    eexists; eexists; split; [reflexivity|]; cbn.
    rewrite PayloadFacts.filter_fresh by exact Hf.
    split; [reflexivity|split; [|intros _; reflexivity]].
    intros b Hb; cbn in Hb |- *. specialize (Hf b Hb). lia.
  - rewrite PayloadFacts.fill_info_heap by exact Hk.
    cbn. apply Z.eqb_neq in Hk; rewrite Hk; cbn.
    eexists; eexists; split; [reflexivity|].
    split; [reflexivity|split; [exact Hf|]].
    intros Hk'; apply Z.eqb_neq in Hk; contradiction.
Qed.

Lemma ComputeConstantValue_delete_round_trip_witness :
  exists i' h',
    ConstantValue.pathogen_DeletePathogenConstantValueInfo
      (Some (ConstantValue.info
               (snd (ConstantValue.pathogen_ComputeConstantValue
                       (fun _ => string_result wide_literal) (CursorExpr 0) sample_state))))
      (ConstantValue.heap
         (snd (ConstantValue.pathogen_ComputeConstantValue
                 (fun _ => string_result wide_literal) (CursorExpr 0) sample_state))) =
      Returns (Some i', h') /\
    ConstantValue.blocks h' = [].
Proof.
  destruct (ComputeConstantValue_delete_round_trip (fun _ => string_result wide_literal)
              (CursorExpr 0) sample_state
              (snd (ConstantValue.pathogen_ComputeConstantValue
                      (fun _ => string_result wide_literal) (CursorExpr 0) sample_state))
              ltac:(intros b []) eq_refl)
    as (i' & h' & H1 & H2 & _).
  exists i', h'; split; [exact H1|exact H2].
Defined.

(** ** Macro enumeration *)

Module MacroFacts.
Import Macros.

Lemma enumerate_complete : forall table,
  definitions_complete table ->
  exists calls, pathogen_EnumerateMacros table = Returns calls /\
    map Name calls = macro_keys table /\
    Forall (fun m => exists key d mi, In (key, Some d) table /\
                      def_macro_info d = Some mi /\ m = macro_information key d mi) calls.
Proof.
  induction table as [|[key [d|]] rest IH]; intros Hc; simpl.
  - exists []; repeat split; constructor.
  - destruct (def_macro_info d) as [mi|] eqn:Hmi;
      [|exfalso; apply (Hc key d); [left; reflexivity|exact Hmi]].
    destruct IH as (calls & H1 & H2 & H3).
    { intros k d' Hin; apply (Hc k d'); right; exact Hin. }
    rewrite H1. exists (macro_information key d mi :: calls).
    split; [reflexivity|split; [unfold macro_keys in *; simpl; now rewrite H2|]].
    constructor; [exists key, d, mi; auto|].
    eapply Forall_impl; [|exact H3]. intros m (k & d' & mi' & Hin & Hm & ->).
    exists k, d', mi'; auto.
  - destruct IH as (calls & H1 & H2 & H3).
    { intros k d' Hin; apply (Hc k d'); right; exact Hin. }
    exists calls; split; [exact H1|split; [exact H2|]].
    eapply Forall_impl; [|exact H3]. intros m (k & d' & mi' & Hin & Hm & ->).
    exists k, d', mi'; auto.
Qed.

Lemma macro_keys_length : forall table,
  (List.length (macro_keys table) <= List.length table)%nat.
Proof.
  intros table; unfold macro_keys; rewrite length_map.
  induction table as [|e rest IH]; simpl; [lia|].
  destruct (isSome (snd e)); simpl; lia.
Qed.

Lemma to_int32_small : forall z, 0 <= z < 2 ^ 31 -> to_int32 z = z.
Proof.
  intros z Hz; unfold to_int32.
  rewrite Z.mod_small by lia.
  destruct (z <? 2 ^ 31) eqn:E; [reflexivity|apply Z.ltb_ge in E; lia].
Qed.

End MacroFacts.

(** X20: when every macro directive's definition carries a [MacroInfo],
    [pathogen_EnumerateMacros] returns after calling the enumerator once
    per identifier that has a macro directive, in the identifier table's
    order, so never more often than [pathogen_GetPreprocessorIdentifierCount]
    reports; each call passes the name with its length and parallel arrays
    of parameter names and their lengths, [ParameterCount] of them. *)
Theorem EnumerateMacros_calls : forall table,
  Macros.definitions_complete table ->
  exists calls,
    Macros.pathogen_EnumerateMacros table = Returns calls /\
    map Macros.Name calls = Macros.macro_keys table /\
    (Z.of_nat (List.length table) < 2 ^ 32 ->
     Z.of_nat (List.length calls) <= Macros.pathogen_GetPreprocessorIdentifierCount table) /\
    Forall (fun m =>
      Macros.NameLength m = Z.of_nat (String.length (Macros.Name m)) /\
      Macros.ParameterNameLengths m =
        map (fun p => Z.of_nat (String.length p)) (Macros.ParameterNames m) /\
      (Z.of_nat (List.length (Macros.ParameterNames m)) < 2 ^ 31 ->
       Macros.ParameterCount m = Z.of_nat (List.length (Macros.ParameterNames m)))) calls.
Proof.
  intros table Hc.
  destruct (MacroFacts.enumerate_complete table Hc) as (calls & H1 & H2 & H3).
  exists calls; split; [exact H1|split; [exact H2|split]].
  - intros Hn. unfold Macros.pathogen_GetPreprocessorIdentifierCount, to_uint32.
    rewrite Z.mod_small by lia.
    pose proof (MacroFacts.macro_keys_length table) as Hl.
    rewrite <- H2, length_map in Hl. lia.
  - eapply Forall_impl; [|exact H3]. intros m (key & d & mi & _ & _ & ->); simpl.
    split; [reflexivity|split; [reflexivity|]].
    intros Hp; apply MacroFacts.to_int32_small; lia.
Qed.

Lemma EnumerateMacros_calls_witness :
  exists calls,
    Macros.pathogen_EnumerateMacros Macros.sample_table = Returns calls /\
    map Macros.Name calls = ["M"; "N"].
Proof.
  destruct (EnumerateMacros_calls Macros.sample_table
              ltac:(intros k d [H|[H|[H|[]]]]; inversion H; subst; discriminate))
    as (calls & H1 & H2 & _).
  exists calls; split; [exact H1|exact H2].
Defined.

(** X21: [pathogen_EnumerateMacros] never frees anything, and it
    dereferences a null [MacroInfo] exactly when some identifier's macro
    directive has a definition without one. *)
Theorem EnumerateMacros_null_macro_info : forall table,
  Macros.pathogen_EnumerateMacros table <> InvalidFree /\
  (Macros.pathogen_EnumerateMacros table = NullDereference <->
   exists key d, In (key, Some d) table /\ Macros.def_macro_info d = None).
Proof.
  induction table as [|[key [d|]] rest IH]; simpl.
  - split; [discriminate|split; [discriminate|intros (k & d & [] & _)]].
  - destruct IH as [IH1 IH2].
    destruct (Macros.def_macro_info d) as [mi|] eqn:Hmi.
    + destruct (Macros.pathogen_EnumerateMacros rest) as [calls| |] eqn:Hr.
      * split; [discriminate|split; [discriminate|]].
        intros (k & d' & [E|Hin] & Hn); [injection E as -> ->; congruence|].
        assert (Returns calls = NullDereference) by (apply IH2; exists k, d'; auto).
        discriminate.
      * split; [discriminate|split; [intros _|reflexivity]].
        destruct (proj1 IH2 eq_refl) as (k & d' & Hin & Hn). exists k, d'; auto.
      * exfalso; apply IH1; reflexivity.
    + split; [discriminate|split; [intros _|reflexivity]].
      exists key, d; auto.
  - destruct IH as [IH1 IH2]. split; [exact IH1|].
    rewrite IH2. split; intros (k & d' & Hin & Hn).
    + exists k, d'; auto.
    + destruct Hin as [E|Hin]; [discriminate|exists k, d'; auto].
Qed.
